(** * Fee, exchange-cost and channel-comparison logic of [rate_calculator.py]

    A shallow embedding of [_03_rate_calculator.py] together with the
    properties its description states about it.

    Conventions of the embedding.
    - A Python [float] is an exact rational ([Q]); [float('inf')], which only
      occurs as the bound of a top tier, is the constructor [PosInf] of
      [bound].  [round(x, n)] is decimal rounding, ties to even.
    - A Python [dict] used as a catalog is an association list in insertion
      order, so that [list(d.keys())] has the order Python gives it.
    - A raised exception is the [Raise] constructor of [pyres].
    - The three catalogs [PAYMENT_CHANNELS], [TIERED_RATES] and
      [EXCHANGE_RATES] come from [_01_config.py]; every function takes them
      as section variables.

    Beside [_03_rate_calculator.py] the development embeds the fee query of
    [_09_main.py], which calls it, the numeric helpers of [_02_utils.py] and
    the channel classes of [_05_models.py]. *)

From Stdlib Require Import QArith Qround ZArith List String Bool Lia Lqa.
From Stdlib Require Import Sorting.Sorted Sorting.Permutation.
Import ListNotations.

(* ------------------------------------------------------------------------- *)
(** ** Numbers *)
(* ------------------------------------------------------------------------- *)

Module PyNum.

(** [x < y] on floats, as a boolean. *)
Definition Qlt_bool (x y : Q) : bool := negb (Qle_bool y x).

(** Nearest integer, ties to the even neighbour. *)
Definition round_half_even (x : Q) : Z :=
  let f := Qfloor x in
  match Qcompare (x - inject_Z f) (1 # 2) with
  | Lt => f
  | Gt => (f + 1)%Z
  | Eq => if Z.even f then f else (f + 1)%Z
  end.

(** [round(x, ndigits)] for a non-negative [ndigits]. *)
Definition py_round (x : Q) (ndigits : nat) : Q :=
  let s := Z.to_pos (10 ^ Z.of_nat ndigits) in
  Qred (Qmake (round_half_even (x * inject_Z (Zpos s))) s).

(** The upper bound of a tier: a float that may be [float('inf')]. *)
Inductive bound : Type :=
| Fin (q : Q)
| PosInf.

(** [amount <= b]. *)
Definition le_bound (amount : Q) (b : bound) : bool :=
  match b with
  | Fin q => Qle_bool amount q
  | PosInf => true
  end.

(** [b < amount]: the amount exceeds the bound. *)
Definition bound_lt (b : bound) (amount : Q) : Prop :=
  match b with
  | Fin q => (q < amount)%Q
  | PosInf => False
  end.

(** [amount <= b] as a proposition. *)
Definition bound_ge (b : bound) (amount : Q) : Prop :=
  match b with
  | Fin q => (amount <= q)%Q
  | PosInf => True
  end.

End PyNum.
Import PyNum.

(* ------------------------------------------------------------------------- *)
(** ** Exceptions *)
(* ------------------------------------------------------------------------- *)

Inductive exn : Type :=
| IndexError.

Inductive pyres (A : Type) : Type :=
| Ok (a : A)
| Raise (e : exn).
Arguments Ok {A} a.
Arguments Raise {A} e.

Definition bind {A B : Type} (m : pyres A) (k : A -> pyres B) : pyres B :=
  match m with
  | Ok a => k a
  | Raise e => Raise e
  end.

Notation "x <- m ;; k" := (bind m (fun x => k))
  (at level 61, m at next level, right associativity).

(* ------------------------------------------------------------------------- *)
(** ** Dictionaries *)
(* ------------------------------------------------------------------------- *)

Module PyDict.

Definition dict (V : Type) : Type := list (string * V).

(** [d.get(k)] *)
Fixpoint get {V : Type} (d : dict V) (k : string) : option V :=
  match d with
  | [] => None
  | (k', v) :: d' => if String.eqb k k' then Some v else get d' k
  end.

(** [k in d] *)
Definition mem {V : Type} (d : dict V) (k : string) : bool :=
  match get d k with
  | Some _ => true
  | None => false
  end.

(** [list(d.keys())] *)
Definition keys {V : Type} (d : dict V) : list string := map fst d.

End PyDict.

(** [x in l] for a list of strings. *)
Definition str_in (x : string) (l : list string) : bool :=
  existsb (String.eqb x) l.

(** [o] if the key is present, [d] otherwise: [cfg.get(key, d)]. *)
Definition get_default {A : Type} (o : option A) (d : A) : A :=
  match o with
  | Some a => a
  | None => d
  end.

(* ------------------------------------------------------------------------- *)
(** ** Configuration records *)
(* ------------------------------------------------------------------------- *)

(** One entry of [PAYMENT_CHANNELS].  The keys the code reads with
    [cfg[...]] are fields; the keys it reads with [cfg.get(..., default)]
    are optional fields. *)
Record channel_config : Type := mk_channel_config {
  cfg_name : string;
  cfg_base_rate : Q;
  cfg_fixed_fee : option Q;
  cfg_min_fee : option Q;
  cfg_max_fee : option Q;
  cfg_is_active : option bool;
  cfg_supported_currencies : option (list string)
}.

(** One element of a list of [TIERED_RATES]. *)
Record rate_tier : Type := mk_rate_tier {
  max_amount : bound;
  rate : Q
}.

(* ------------------------------------------------------------------------- *)
(** ** Result records *)
(* ------------------------------------------------------------------------- *)

(** The success dictionary of [calculate_channel_fee]. *)
Record fee_ok : Type := mk_fee_ok {
  fee_channel_id : string;
  fee_channel_name : string;
  fee_amount : Q;
  fee_rate : Q;
  fee_fixed_fee : Q;
  fee_calculated_fee : Q;
  fee_final_fee : Q;
  fee_note : string
}.

(** What [calculate_channel_fee] returns: [{"success": False, "error": e}]
    or the success dictionary. *)
Inductive fee_result : Type :=
| FeeError (error : string)
| FeeOk (r : fee_ok).

Definition fee_success (r : fee_result) : bool :=
  match r with
  | FeeError _ => false
  | FeeOk _ => true
  end.

(** The success dictionary of [calculate_exchange_cost]. *)
Record exchange_ok : Type := mk_exchange_ok {
  ex_from_currency : string;
  ex_to_currency : string;
  ex_original_amount : Q;
  ex_market_rate : Q;
  ex_actual_rate : Q;
  ex_spread_rate : Q;
  ex_market_amount : Q;
  ex_actual_amount : Q;
  ex_exchange_loss : Q;
  ex_loss_percentage : Q
}.

Inductive exchange_result : Type :=
| ExchangeError (error : string)
| ExchangeOk (r : exchange_ok).

Definition exchange_success (r : exchange_result) : bool :=
  match r with
  | ExchangeError _ => false
  | ExchangeOk _ => true
  end.

(** The dictionary [calculate_total_cost] builds. *)
Record total_ok : Type := mk_total_ok {
  tc_amount : Q;
  tc_currency : string;
  tc_channel_id : string;
  tc_fee : Q;
  tc_fee_rate : Q;
  tc_exchange_loss : Q;
  tc_amount_cny : Q;
  tc_total_cost : Q;
  tc_total_cost_rate : Q
}.

(** What [calculate_total_cost] returns: the failed fee dictionary as it is,
    the partly filled dictionary with [success] reset and an [error], or
    the complete dictionary. *)
Inductive total_result : Type :=
| TotalFeeError (error : string)
| TotalExchangeError (amount : Q) (currency channel_id : string)
                     (fee fee_rate : Q) (error : string)
| TotalOk (r : total_ok).

Definition total_success (r : total_result) : bool :=
  match r with
  | TotalOk _ => true
  | _ => false
  end.

(** One dictionary of the list [compare_channel_fees] returns; ["rank"] is
    absent until the last loop writes it. *)
Record comparison_entry : Type := mk_comparison_entry {
  ce_channel_id : string;
  ce_channel_name : string;
  ce_fee : Q;
  ce_exchange_loss : Q;
  ce_total_cost : Q;
  ce_total_cost_rate : Q;
  ce_rank : option nat
}.

(** [result["rank"] = r] *)
Definition set_rank (e : comparison_entry) (r : nat) : comparison_entry :=
  {| ce_channel_id := ce_channel_id e;
     ce_channel_name := ce_channel_name e;
     ce_fee := ce_fee e;
     ce_exchange_loss := ce_exchange_loss e;
     ce_total_cost := ce_total_cost e;
     ce_total_cost_rate := ce_total_cost_rate e;
     ce_rank := Some r |}.

(* ------------------------------------------------------------------------- *)
(** ** [sorted(results, key=...)] and [enumerate] *)
(* ------------------------------------------------------------------------- *)

Section Sorted.
Variable A : Type.
Variable key : A -> Q.

(** Insertion in front of the first element whose key is not smaller. *)
Fixpoint insert_by (x : A) (l : list A) : list A :=
  match l with
  | [] => [x]
  | y :: l' =>
      if Qle_bool (key x) (key y) then x :: y :: l' else y :: insert_by x l'
  end.

(** [sorted(l, key=key)]: a stable sort, ascending. *)
Definition sorted (l : list A) : list A := fold_right insert_by [] l.

End Sorted.
Arguments insert_by {A} key x l.
Arguments sorted {A} key l.

(** [for i, result in enumerate(results): result["rank"] = i + 1], the
    index starting at [i]. *)
Fixpoint assign_ranks_from (i : nat) (l : list comparison_entry)
  : list comparison_entry :=
  match l with
  | [] => []
  | e :: l' => set_rank e (i + 1) :: assign_ranks_from (S i) l'
  end.

Definition assign_ranks (l : list comparison_entry) : list comparison_entry :=
  assign_ranks_from 0 l.

(* ------------------------------------------------------------------------- *)
(** ** The functions of [rate_calculator.py] *)
(* ------------------------------------------------------------------------- *)

Open Scope string_scope.

Section RateCalculator.

Variable PAYMENT_CHANNELS : PyDict.dict channel_config.
Variable TIERED_RATES : PyDict.dict (list rate_tier).
Variable EXCHANGE_RATES : PyDict.dict Q.

(** [calculate_simple_fee(amount, rate)] *)
Definition calculate_simple_fee (amount rate0 : Q) : Q :=
  if Qle_bool amount 0 then 0 else amount * rate0.

(** [calculate_fee_with_minimum(amount, rate, min_fee)] *)
Definition calculate_fee_with_minimum (amount rate0 min_fee : Q) : Q :=
  if Qle_bool amount 0 then 0
  else
    let fee := amount * rate0 in
    if Qlt_bool fee min_fee then min_fee else fee.

(** The [for tier in tiers] loop of [calculate_tiered_rate]: the rate of
    the first tier with [amount <= tier["max_amount"]], if the loop
    returns. *)
Fixpoint scan_tiers (amount : Q) (tiers : list rate_tier) : option Q :=
  match tiers with
  | [] => None
  | tier :: rest =>
      if le_bound amount (max_amount tier) then Some (rate tier)
      else scan_tiers amount rest
  end.

(** [tiers[-1]] *)
Definition last_tier (tiers : list rate_tier) : pyres rate_tier :=
  match rev tiers with
  | [] => Raise IndexError
  | t :: _ => Ok t
  end.

(** [calculate_tiered_rate(amount, channel_id)] *)
Definition calculate_tiered_rate (amount : Q) (channel_id : string)
  : pyres Q :=
  match PyDict.get TIERED_RATES channel_id with
  | None =>
      match PyDict.get PAYMENT_CHANNELS channel_id with
      | Some channel_config => Ok (cfg_base_rate channel_config)
      | None => Ok (2 # 100)
      end
  | Some tiers =>
      match scan_tiers amount tiers with
      | Some r => Ok r
      | None => t <- last_tier tiers ;; Ok (rate t)
      end
  end.

(** [calculate_channel_fee(amount, channel_id, use_tiered_rate)] *)
Definition calculate_channel_fee
  (amount : Q) (channel_id : string) (use_tiered_rate : bool)
  : pyres fee_result :=
  match PyDict.get PAYMENT_CHANNELS channel_id with
  | None => Ok (FeeError ("未知的支付通道: " ++ channel_id))
  | Some channel_config =>
      if negb (get_default (cfg_is_active channel_config) true) then
        Ok (FeeError ("支付通道已停用: " ++ channel_id))
      else
        rate0 <- (if use_tiered_rate && PyDict.mem TIERED_RATES channel_id
                  then calculate_tiered_rate amount channel_id
                  else Ok (cfg_base_rate channel_config)) ;;
        let fixed_fee := get_default (cfg_fixed_fee channel_config) 0 in
        let calculated_fee := amount * rate0 + fixed_fee in
        let min_fee := get_default (cfg_min_fee channel_config) 0 in
        let max_fee := get_default (cfg_max_fee channel_config) 0 in
        let '(final_fee, note) :=
          if Qlt_bool 0 min_fee && Qlt_bool calculated_fee min_fee then
            (min_fee, "已应用最低收费")
          else if Qlt_bool 0 max_fee && Qlt_bool max_fee calculated_fee then
            (max_fee, "已应用最高收费")
          else (calculated_fee, "") in
        Ok (FeeOk {| fee_channel_id := channel_id;
                     fee_channel_name := cfg_name channel_config;
                     fee_amount := amount;
                     fee_rate := rate0;
                     fee_fixed_fee := fixed_fee;
                     fee_calculated_fee := py_round calculated_fee 2;
                     fee_final_fee := py_round final_fee 2;
                     fee_note := note |})
  end.

(** [calculate_exchange_cost(amount, from_currency, to_currency,
    spread_rate)] *)
Definition calculate_exchange_cost
  (amount : Q) (from_currency to_currency : string) (spread_rate : Q)
  : exchange_result :=
  match PyDict.get EXCHANGE_RATES from_currency with
  | None => ExchangeError ("不支持的货币: " ++ from_currency)
  | Some market_rate =>
      let actual_rate := market_rate * (1 - spread_rate) in
      let market_amount := amount * market_rate in
      let actual_amount := amount * actual_rate in
      let exchange_loss := market_amount - actual_amount in
      ExchangeOk {| ex_from_currency := from_currency;
                    ex_to_currency := to_currency;
                    ex_original_amount := amount;
                    ex_market_rate := market_rate;
                    ex_actual_rate := py_round actual_rate 4;
                    ex_spread_rate := spread_rate;
                    ex_market_amount := py_round market_amount 2;
                    ex_actual_amount := py_round actual_amount 2;
                    ex_exchange_loss := py_round exchange_loss 2;
                    ex_loss_percentage := py_round (spread_rate * 100) 2 |}
  end.

(** The default of the [spread_rate] parameters. *)
Definition default_spread_rate : Q := 5 # 1000.

(** [calculate_total_cost(amount, currency, channel_id, spread_rate)] *)
Definition calculate_total_cost
  (amount : Q) (currency channel_id : string) (spread_rate : Q)
  : pyres total_result :=
  fee_result0 <- calculate_channel_fee amount channel_id true ;;
  match fee_result0 with
  | FeeError e => Ok (TotalFeeError e)
  | FeeOk f =>
      let fee := fee_final_fee f in
      let fee_rate0 := fee_rate f in
      let finish (exchange_loss amount_cny total_cost : Q) :=
        Ok (TotalOk
              {| tc_amount := amount;
                 tc_currency := currency;
                 tc_channel_id := channel_id;
                 tc_fee := fee;
                 tc_fee_rate := fee_rate0;
                 tc_exchange_loss := exchange_loss;
                 tc_amount_cny := amount_cny;
                 tc_total_cost := py_round total_cost 2;
                 tc_total_cost_rate :=
                   if Qlt_bool 0 amount_cny
                   then py_round (total_cost / amount_cny) 4
                   else 0 |}) in
      if negb (String.eqb currency "CNY") then
        match calculate_exchange_cost amount currency "CNY" spread_rate with
        | ExchangeError e =>
            Ok (TotalExchangeError amount currency channel_id fee fee_rate0 e)
        | ExchangeOk x =>
            let fee_cny := fee * ex_actual_rate x in
            let total_cost := fee_cny + ex_exchange_loss x in
            finish (ex_exchange_loss x) (ex_actual_amount x) total_cost
        end
      else finish 0 amount fee
  end.

(** The body of the [for channel_id in channel_ids] loop of
    [compare_channel_fees], the appended dictionaries in the order of the
    appends. *)
Fixpoint collect_results
  (amount : Q) (currency : string) (channel_ids : list string)
  : pyres (list comparison_entry) :=
  match channel_ids with
  | [] => Ok []
  | channel_id :: rest =>
      match PyDict.get PAYMENT_CHANNELS channel_id with
      | None => collect_results amount currency rest
      | Some channel_config =>
          let supported :=
            get_default (cfg_supported_currencies channel_config) [] in
          if negb (str_in currency supported) then
            collect_results amount currency rest
          else
            cost_result <- calculate_total_cost amount currency channel_id
                             default_spread_rate ;;
            results <- collect_results amount currency rest ;;
            match cost_result with
            | TotalOk c =>
                Ok ({| ce_channel_id := channel_id;
                       ce_channel_name := cfg_name channel_config;
                       ce_fee := tc_fee c;
                       ce_exchange_loss := tc_exchange_loss c;
                       ce_total_cost := tc_total_cost c;
                       ce_total_cost_rate := tc_total_cost_rate c;
                       ce_rank := None |} :: results)
            | _ => Ok results
            end
      end
  end.

(** [compare_channel_fees(amount, currency, channel_ids)]; [None] is the
    default of [channel_ids]. *)
Definition compare_channel_fees
  (amount : Q) (currency : string) (channel_ids : option (list string))
  : pyres (list comparison_entry) :=
  let channel_ids0 :=
    match channel_ids with
    | None => PyDict.keys PAYMENT_CHANNELS
    | Some l => l
    end in
  results <- collect_results amount currency channel_ids0 ;;
  Ok (assign_ranks (sorted ce_total_cost results)).

(** [find_cheapest_channel(amount, currency)] *)
Definition find_cheapest_channel (amount : Q) (currency : string)
  : pyres (option comparison_entry) :=
  comparison <- compare_channel_fees amount currency None ;;
  Ok (match comparison with
      | [] => None
      | first :: _ => Some first
      end).

End RateCalculator.

(* ------------------------------------------------------------------------- *)
(** ** Vocabulary of the statements *)
(* ------------------------------------------------------------------------- *)

(** The result [res] with its echoed ["to_currency"] replaced by [to]. *)
Definition with_to_currency (to : string) (res : exchange_result)
  : exchange_result :=
  match res with
  | ExchangeError e => ExchangeError e
  | ExchangeOk r =>
      ExchangeOk {| ex_from_currency := ex_from_currency r;
                    ex_to_currency := to;
                    ex_original_amount := ex_original_amount r;
                    ex_market_rate := ex_market_rate r;
                    ex_actual_rate := ex_actual_rate r;
                    ex_spread_rate := ex_spread_rate r;
                    ex_market_amount := ex_market_amount r;
                    ex_actual_amount := ex_actual_amount r;
                    ex_exchange_loss := ex_exchange_loss r;
                    ex_loss_percentage := ex_loss_percentage r |}
  end.

(** The entry [e] without its ["rank"]. *)
Definition clear_rank (e : comparison_entry) : comparison_entry :=
  {| ce_channel_id := ce_channel_id e;
     ce_channel_name := ce_channel_name e;
     ce_fee := ce_fee e;
     ce_exchange_loss := ce_exchange_loss e;
     ce_total_cost := ce_total_cost e;
     ce_total_cost_rate := ce_total_cost_rate e;
     ce_rank := None |}.

(** The entries of [l] whose total cost is [c]. *)
Definition with_cost (c : Q) (l : list comparison_entry)
  : list comparison_entry :=
  filter (fun e => Qeq_bool (ce_total_cost e) c) l.

(** The channel [channel_id] is in the catalog and lists [currency] among
    its supported currencies. *)
Definition supports (P : PyDict.dict channel_config)
  (currency channel_id : string) : bool :=
  match PyDict.get P channel_id with
  | None => false
  | Some c => str_in currency (get_default (cfg_supported_currencies c) [])
  end.

(** The total cost of [channel_id] is computed and reports success. *)
Definition cost_succeeds (P : PyDict.dict channel_config)
  (T : PyDict.dict (list rate_tier)) (E : PyDict.dict Q)
  (amount : Q) (currency channel_id : string) : bool :=
  match calculate_total_cost P T E amount currency channel_id
          default_spread_rate with
  | Ok r => total_success r
  | Raise _ => false
  end.

(** The entry [e] is the one [compare_channel_fees] builds for its channel:
    the name of the catalog and the figures of a successful total cost. *)
Definition entry_of_cost (P : PyDict.dict channel_config)
  (T : PyDict.dict (list rate_tier)) (E : PyDict.dict Q)
  (amount : Q) (currency : string) (e : comparison_entry) : Prop :=
  exists c tc,
    PyDict.get P (ce_channel_id e) = Some c /\
    calculate_total_cost P T E amount currency (ce_channel_id e)
      default_spread_rate = Ok (TotalOk tc) /\
    ce_channel_name e = cfg_name c /\
    ce_fee e = tc_fee tc /\
    ce_exchange_loss e = tc_exchange_loss tc /\
    ce_total_cost e = tc_total_cost tc /\
    ce_total_cost_rate e = tc_total_cost_rate tc.

(** The channels [compare_channel_fees] iterates over. *)
Definition iterated_ids (P : PyDict.dict channel_config)
  (channel_ids : option (list string)) : list string :=
  match channel_ids with
  | None => PyDict.keys P
  | Some l => l
  end.

(** No channel of the catalog has an empty list of tiers. *)
Definition tiers_nonempty (T : PyDict.dict (list rate_tier)) : Prop :=
  forall channel_id tiers, PyDict.get T channel_id = Some tiers -> tiers <> [].

(* ------------------------------------------------------------------------- *)
(** ** Catalogs used in the examples *)
(* ------------------------------------------------------------------------- *)

Module Sample.

Definition currencies_bank : list string := ["USD"; "EUR"; "GBP"; "JPY"; "HKD"].

(** Modelled from the spec: the catalog [PAYMENT_CHANNELS] of
    [_01_config.py], which is not among the sources.  The channel
    ["bank_transfer"] is the one of the tier scenario, ["swift"] and
    ["alipay"] carry the values [models.py] uses in its demonstration
    (rate 0.015, fixed fee 30, minimum 80, maximum 800; rate 0.02), and
    ["legacy_wire"] is a disabled channel. *)
Definition PAYMENT_CHANNELS : PyDict.dict channel_config :=
  [ ("bank_transfer",
     {| cfg_name := "银行转账";
        cfg_base_rate := 15 # 1000;
        cfg_fixed_fee := None;
        cfg_min_fee := None;
        cfg_max_fee := None;
        cfg_is_active := Some true;
        cfg_supported_currencies := Some ["USD"; "EUR"; "GBP"] |});
    ("swift",
     {| cfg_name := "SWIFT国际汇款";
        cfg_base_rate := 15 # 1000;
        cfg_fixed_fee := Some 30%Q;
        cfg_min_fee := Some 80%Q;
        cfg_max_fee := Some 800%Q;
        cfg_is_active := Some true;
        cfg_supported_currencies := Some currencies_bank |});
    ("alipay",
     {| cfg_name := "支付宝国际";
        cfg_base_rate := 2 # 100;
        cfg_fixed_fee := None;
        cfg_min_fee := None;
        cfg_max_fee := None;
        cfg_is_active := None;
        cfg_supported_currencies := Some ["USD"; "CNY"] |});
    ("legacy_wire",
     {| cfg_name := "旧版电汇";
        cfg_base_rate := 1 # 100;
        cfg_fixed_fee := None;
        cfg_min_fee := None;
        cfg_max_fee := None;
        cfg_is_active := Some false;
        cfg_supported_currencies := Some ["USD"] |}) ].

(** Modelled from the spec: the catalog [TIERED_RATES] of
    [_01_config.py], with the tiers of the ["bank_transfer"] scenario:
    (10000, 0.015), (50000, 0.012), (100000, 0.010), (inf, 0.008). *)
Definition TIERED_RATES : PyDict.dict (list rate_tier) :=
  [ ("bank_transfer",
     [ {| max_amount := Fin 10000; rate := 15 # 1000 |};
       {| max_amount := Fin 50000; rate := 12 # 1000 |};
       {| max_amount := Fin 100000; rate := 10 # 1000 |};
       {| max_amount := PosInf; rate := 8 # 1000 |} ]) ].

(** Modelled from the spec: the catalog [EXCHANGE_RATES] of
    [_01_config.py], with the market rate 7.25 of the USD scenario. *)
Definition EXCHANGE_RATES : PyDict.dict Q :=
  [ ("USD", 725 # 100); ("EUR", 785 # 100) ].

(** A catalog with two unusual clamps: a minimum above the maximum, and
    a maximum that is not a whole number of cents. *)
Definition CLAMP_CHANNELS : PyDict.dict channel_config :=
  [ ("inverted",
     {| cfg_name := "inverted";
        cfg_base_rate := 1 # 100;
        cfg_fixed_fee := None;
        cfg_min_fee := Some 50%Q;
        cfg_max_fee := Some 20%Q;
        cfg_is_active := None;
        cfg_supported_currencies := Some ["USD"] |});
    ("subcent",
     {| cfg_name := "subcent";
        cfg_base_rate := 1 # 100;
        cfg_fixed_fee := None;
        cfg_min_fee := None;
        cfg_max_fee := Some (7 # 1000);
        cfg_is_active := None;
        cfg_supported_currencies := Some ["USD"] |}) ].

End Sample.

(* ------------------------------------------------------------------------- *)
(** ** The fee tier of [rate_calculator.py] *)
(* ------------------------------------------------------------------------- *)

(** [get_fee_tier(amount)] *)
Definition get_fee_tier (amount : Q) : string :=
  if Qle_bool amount 0 then "无效金额"
  else if Qlt_bool amount 1000 then "小额"
  else if Qlt_bool amount 10000 then "中额"
  else if Qlt_bool amount 100000 then "大额"
  else "超大额".

(** What [calculate_tiered_rate] does with the tier list of a channel. *)
Definition select_rate (amount : Q) (tiers : list rate_tier) : pyres Q :=
  match scan_tiers amount tiers with
  | Some r => Ok r
  | None => t <- last_tier tiers ;; Ok (rate t)
  end.

(** The rates of a tier list never rise from one tier to a later one. *)
Definition rates_descending (tiers : list rate_tier) : Prop :=
  StronglySorted (fun t u => (rate u <= rate t)%Q) tiers.

(** The tier list of [channel_id] is present and empty. *)
Definition has_empty_tiers (T : PyDict.dict (list rate_tier))
  (channel_id : string) : Prop :=
  PyDict.get T channel_id = Some [].

(** The channel [channel_id] is in the catalog and enabled. *)
Definition enabled (P : PyDict.dict channel_config) (channel_id : string)
  : Prop :=
  exists c, PyDict.get P channel_id = Some c /\
            get_default (cfg_is_active c) true = true.

(* ------------------------------------------------------------------------- *)
(** ** The fee query of [main.py] *)
(* ------------------------------------------------------------------------- *)

(** A value stored under a key of a result dictionary. *)
Inductive pyval : Type :=
| VStr (s : string)
| VNum (q : Q)
| VInt (n : nat).

(** The dictionary an entry of [compare_channel_fees] is: the keys of the
    dictionary literal, and ["rank"] once it is written. *)
Definition entry_items (e : comparison_entry) : PyDict.dict pyval :=
  ([ ("channel_id", VStr (ce_channel_id e));
     ("channel_name", VStr (ce_channel_name e));
     ("fee", VNum (ce_fee e));
     ("exchange_loss", VNum (ce_exchange_loss e));
     ("total_cost", VNum (ce_total_cost e));
     ("total_cost_rate", VNum (ce_total_cost_rate e)) ]
   ++ match ce_rank e with
      | Some r => [("rank", VInt r)]
      | None => []
      end)%list.

(** What leaves the [try] block of the fee query: only [ValueError] is
    caught there. *)
Inductive uncaught : Type :=
| KeyError (key : string)
| FromCalculator (e : exn).

(** How one round of the fee query ends: the loop goes on, or an exception
    leaves [interactive_mode]. *)
Inductive query_end : Type :=
| LoopContinues
| Leaves (e : uncaught).

Definition newline : string := String (Ascii.ascii_of_nat 10) EmptyString.

Section FeeQuery.

Variable PAYMENT_CHANNELS : PyDict.dict channel_config.
Variable TIERED_RATES : PyDict.dict (list rate_tier).
Variable EXCHANGE_RATES : PyDict.dict Q.

(** [f"{value:spec}"], the formatting of Python. *)
Variable format_value : string -> pyval -> string.

(** [print(prefix + f"{result[key]:spec}")] after the lines [printed]: the
    line is added, or [KeyError] leaves with the lines printed so far. *)
Definition print_item (result : comparison_entry) (prefix key spec : string)
  (printed : list string) : list string * option uncaught :=
  match PyDict.get (entry_items result) key with
  | None => (printed, Some (KeyError key))
  | Some v =>
      (List.app printed [String.append prefix (format_value spec v)], None)
  end.

(** The branch [choice == "3"] of [interactive_mode], from
    [amount = float(amount)] on, with the parsed amount: the lines it
    prints and how it ends. *)
Definition fee_query (amount : Q) (currency : string)
  : list string * query_end :=
  if Qle_bool amount 0 then (["  错误：交易金额必须大于0"], LoopContinues)
  else
    match find_cheapest_channel PAYMENT_CHANNELS TIERED_RATES EXCHANGE_RATES
            amount currency with
    | Raise e => ([], Leaves (FromCalculator e))
    | Ok None => (["  未找到合适的通道"], LoopContinues)
    | Ok (Some result) =>
        match entry_items result with
        | [] => (["  未找到合适的通道"], LoopContinues)
        | _ :: _ =>
            match print_item result (newline ++ "  推荐通道: ")
                    "channel_name" "" [] with
            | (printed, Some e) => (printed, Leaves e)
            | (printed, None) =>
                match print_item result "  预估费率: " "avg_fee_rate" ".2%"
                        printed with
                | (printed, Some e) => (printed, Leaves e)
                | (printed, None) =>
                    match print_item result "  预估费用: " "estimated_fee"
                            ".2f" printed with
                    | (printed, Some e) => (printed, Leaves e)
                    | (printed, None) => (printed, LoopContinues)
                    end
                end
            end
        end
    end.

End FeeQuery.

(* ------------------------------------------------------------------------- *)
(** ** Helpers of [utils.py] *)
(* ------------------------------------------------------------------------- *)

(** [min(a, b)] and [max(a, b)]: the first argument wins a tie. *)
Definition py_min (a b : Q) : Q := if Qlt_bool b a then b else a.
Definition py_max (a b : Q) : Q := if Qlt_bool a b then b else a.

(** [clamp(value, min_value, max_value)] *)
Definition clamp (value min_value max_value : Q) : Q :=
  py_max min_value (py_min value max_value).






(** [x.is_integer()] *)
Definition is_integer (x : Q) : bool := Qeq_bool (inject_Z (Qfloor x)) x.

(** [int(x)]: truncation towards zero. *)
Definition py_int (x : Q) : Z := if Qle_bool 0 x then Qfloor x else Qceiling x.

(** [l[i]] for an integer [i]: a negative index counts from the end, an
    index out of range raises [IndexError]. *)
Definition py_getitem {A : Type} (l : list A) (i : Z) : pyres A :=
  let n := Z.of_nat (List.length l) in
  let j := if (i <? 0)%Z then (i + n)%Z else i in
  if ((0 <=? j) && (j <? n))%Z then
    match nth_error l (Z.to_nat j) with
    | Some a => Ok a
    | None => Raise IndexError
    end
  else Raise IndexError.

(** [calculate_percentile(values, percentile)] *)
Definition calculate_percentile (values : list Q) (percentile : Q) : pyres Q :=
  match values with
  | [] => Ok 0
  | _ :: _ =>
      let sorted_values := sorted (fun x => x) values in
      let index :=
        inject_Z (Z.of_nat (List.length sorted_values) - 1) * percentile / 100 in
      if is_integer index then py_getitem sorted_values (py_int index)
      else
        let lower_index := py_int index in
        let upper_index := (lower_index + 1)%Z in
        let weight := index - inject_Z lower_index in
        lower <- py_getitem sorted_values lower_index ;;
        upper <- py_getitem sorted_values upper_index ;;
        Ok (lower * (1 - weight) + upper * weight)
  end.

(* ------------------------------------------------------------------------- *)
(** ** The channel classes of [models.py] *)
(* ------------------------------------------------------------------------- *)

(** The class of a channel object, with the attributes only that class
    has. *)
Inductive channel_class : Type :=
| ClassPaymentChannel
| ClassBankChannel (processing_days : Z) (swift_code : option string)
| ClassWalletChannel (instant_transfer : bool) (cashback_rate : Q)
| ClassCardChannel (card_types : list string).

(** A [PaymentChannel] object. *)
Record payment_channel : Type := mk_payment_channel {
  pc_class : channel_class;
  pc_channel_id : string;
  pc_name : string;
  pc_base_rate : Q;
  pc_fixed_fee : Q;
  pc_min_fee : Q;
  pc_max_fee : Q;
  pc_channel_type : string;
  pc_supported_currencies : list string
}.

(** [PaymentChannel.__init__] *)
Definition PaymentChannel_init (channel_id name : string)
  (base_rate fixed_fee min_fee max_fee : Q) : payment_channel :=
  {| pc_class := ClassPaymentChannel;
     pc_channel_id := channel_id;
     pc_name := name;
     pc_base_rate := base_rate;
     pc_fixed_fee := fixed_fee;
     pc_min_fee := min_fee;
     pc_max_fee := max_fee;
     pc_channel_type := "base";
     pc_supported_currencies := [] |}.

(** The object [ch] after a subclass constructor has set its class, its
    type tag and its currencies. *)
Definition specialise (ch : payment_channel) (cls : channel_class)
  (channel_type : string) (currencies : list string) : payment_channel :=
  {| pc_class := cls;
     pc_channel_id := pc_channel_id ch;
     pc_name := pc_name ch;
     pc_base_rate := pc_base_rate ch;
     pc_fixed_fee := pc_fixed_fee ch;
     pc_min_fee := pc_min_fee ch;
     pc_max_fee := pc_max_fee ch;
     pc_channel_type := channel_type;
     pc_supported_currencies := currencies |}.

(** [BankChannel.__init__] *)
Definition BankChannel_init (channel_id name : string)
  (base_rate fixed_fee min_fee max_fee : Q) (processing_days : Z)
  (swift_code : option string) : payment_channel :=
  specialise
    (PaymentChannel_init channel_id name base_rate fixed_fee min_fee max_fee)
    (ClassBankChannel processing_days swift_code) "bank"
    ["USD"; "EUR"; "GBP"; "JPY"; "HKD"].

(** [WalletChannel.__init__] *)
Definition WalletChannel_init (channel_id name : string)
  (base_rate fixed_fee : Q) (instant_transfer : bool) (cashback_rate : Q)
  : payment_channel :=
  specialise
    (PaymentChannel_init channel_id name base_rate fixed_fee 0 0)
    (ClassWalletChannel instant_transfer cashback_rate) "wallet"
    ["USD"; "EUR"; "GBP"; "JPY"; "HKD"; "SGD"; "PHP"].

(** [CardChannel.__init__] *)
Definition CardChannel_init (channel_id name : string)
  (base_rate fixed_fee min_fee max_fee : Q) (card_types : option (list string))
  : payment_channel :=
  specialise
    (PaymentChannel_init channel_id name base_rate fixed_fee min_fee max_fee)
    (ClassCardChannel
       (match card_types with
        | Some (t :: l) => t :: l
        | _ => ["visa"; "mastercard"; "unionpay"]
        end))
    "card" ["USD"; "EUR"; "GBP"; "JPY"; "HKD"; "SGD"].

(** [PaymentChannel.calculate_fee(self, amount)] *)
Definition PaymentChannel_calculate_fee (self : payment_channel) (amount : Q)
  : Q :=
  let fee := amount * pc_base_rate self + pc_fixed_fee self in
  let fee :=
    if Qlt_bool 0 (pc_min_fee self) && Qlt_bool fee (pc_min_fee self)
    then pc_min_fee self else fee in
  let fee :=
    if Qlt_bool 0 (pc_max_fee self) && Qlt_bool (pc_max_fee self) fee
    then pc_max_fee self else fee in
  fee.

(** [BankChannel.calculate_fee(self, amount)] *)
Definition BankChannel_calculate_fee (self : payment_channel) (amount : Q)
  : Q :=
  let base_fee := PaymentChannel_calculate_fee self amount in
  if Qlt_bool 50000 amount then base_fee * (9 # 10) else base_fee.

(** [WalletChannel.calculate_fee(self, amount)] *)
Definition WalletChannel_calculate_fee (self : payment_channel)
  (cashback_rate amount : Q) : Q :=
  let fee := amount * pc_base_rate self + pc_fixed_fee self in
  if Qlt_bool 0 cashback_rate then
    let cashback := amount * cashback_rate in
    py_max (fee - cashback) 0
  else fee.

(** [channel.calculate_fee(amount)]: the method of the object's class. *)
Definition calculate_fee (channel : payment_channel) (amount : Q) : Q :=
  match pc_class channel with
  | ClassBankChannel _ _ => BankChannel_calculate_fee channel amount
  | ClassWalletChannel _ cashback_rate =>
      WalletChannel_calculate_fee channel cashback_rate amount
  | ClassPaymentChannel | ClassCardChannel _ =>
      PaymentChannel_calculate_fee channel amount
  end.

(** [channel.is_currency_supported(currency)] *)
Definition is_currency_supported (channel : payment_channel)
  (currency : string) : bool :=
  str_in currency (pc_supported_currencies channel).

(** The keys of a catalog entry that only [create_channel_from_config]
    reads, beside the entry itself. *)
Record factory_config : Type := mk_factory_config {
  fc_config : channel_config;
  fc_type : option string;
  fc_processing_days : option Z
}.

(** [create_channel_from_config(channel_id, config)] *)
Definition create_channel_from_config (channel_id : string)
  (config : factory_config) : payment_channel :=
  let channel_type := get_default (fc_type config) "base" in
  let c := fc_config config in
  if String.eqb channel_type "bank" then
    BankChannel_init channel_id (cfg_name c) (cfg_base_rate c)
      (get_default (cfg_fixed_fee c) 0) (get_default (cfg_min_fee c) 0)
      (get_default (cfg_max_fee c) 0)
      (get_default (fc_processing_days config) 3%Z) None
  else if String.eqb channel_type "wallet" then
    WalletChannel_init channel_id (cfg_name c) (cfg_base_rate c)
      (get_default (cfg_fixed_fee c) 0)
      (get_default (fc_processing_days config) 1 <=? 1)%Z 0
  else if String.eqb channel_type "card" then
    CardChannel_init channel_id (cfg_name c) (cfg_base_rate c)
      (get_default (cfg_fixed_fee c) 0) (get_default (cfg_min_fee c) 0)
      (get_default (cfg_max_fee c) 0) None
  else
    PaymentChannel_init channel_id (cfg_name c) (cfg_base_rate c)
      (get_default (cfg_fixed_fee c) 0) 0 0.

(* ------------------------------------------------------------------------- *)
(** ** Facts about numbers and rounding *)
(* ------------------------------------------------------------------------- *)

Section NumFacts.
Open Scope Q_scope.

Lemma Qlt_bool_iff (x y : Q) : Qlt_bool x y = true <-> x < y.
Proof.
  unfold Qlt_bool. rewrite negb_true_iff.
  split; intro H.
  - apply Qnot_le_lt. intro Hle. apply Qle_bool_iff in Hle. congruence.
  - destruct (Qle_bool y x) eqn:E; [|reflexivity].
    apply Qle_bool_iff in E. exfalso. apply (Qlt_not_le _ _ H E).
Qed.

Lemma Qlt_bool_false_iff (x y : Q) : Qlt_bool x y = false <-> y <= x.
Proof.
  unfold Qlt_bool. rewrite negb_false_iff. apply Qle_bool_iff.
Qed.

Lemma le_bound_true (amount : Q) (b : bound) :
  le_bound amount b = true <-> bound_ge b amount.
Proof.
  destruct b as [q|]; simpl; [apply Qle_bool_iff | tauto].
Qed.

Lemma le_bound_false (amount : Q) (b : bound) :
  le_bound amount b = false <-> bound_lt b amount.
Proof.
  destruct b as [q|]; simpl.
  - rewrite <- Qlt_bool_iff. unfold Qlt_bool.
    destruct (Qle_bool amount q); simpl; intuition congruence.
  - intuition congruence.
Qed.

Lemma round_half_even_range (x : Q) :
  round_half_even x = Qfloor x \/ round_half_even x = (Qfloor x + 1)%Z.
Proof.
  unfold round_half_even.
  destruct (Qcompare _ _); [destruct (Z.even _)| |]; auto.
Qed.

Lemma round_half_even_mono (x y : Q) :
  x <= y -> (round_half_even x <= round_half_even y)%Z.
Proof.
  intro Hxy.
  pose proof (Qfloor_resp_le _ _ Hxy) as Hf.
  destruct (Z.eq_dec (Qfloor x) (Qfloor y)) as [E|N].
  - unfold round_half_even. rewrite E.
    destruct (Qcompare_spec (x - inject_Z (Qfloor y)) (1 # 2)) as [Hx|Hx|Hx];
    destruct (Qcompare_spec (y - inject_Z (Qfloor y)) (1 # 2)) as [Hy|Hy|Hy];
    try destruct (Z.even (Qfloor y)); try lia; exfalso; lra.
  - destruct (round_half_even_range x) as [-> | ->];
    destruct (round_half_even_range y) as [-> | ->]; lia.
Qed.

Lemma round_half_even_comp (x y : Q) :
  x == y -> round_half_even x = round_half_even y.
Proof.
  intro H. unfold round_half_even.
  rewrite (Qfloor_comp _ _ H).
  assert (Hc : (x - inject_Z (Qfloor y) ?= 1 # 2)
               = (y - inject_Z (Qfloor y) ?= 1 # 2)).
  { apply Qcompare_comp; [rewrite H|]; reflexivity. }
  rewrite Hc. reflexivity.
Qed.

(** Rounding sends equal rationals to the same representative. *)
Lemma py_round_comp (x y : Q) (n : nat) :
  x == y -> py_round x n = py_round y n.
Proof.
  intro H. unfold py_round.
  set (s := Z.to_pos (10 ^ Z.of_nat n)).
  assert (E : round_half_even (x * inject_Z (Z.pos s))
              = round_half_even (y * inject_Z (Z.pos s))).
  { apply round_half_even_comp. rewrite H. reflexivity. }
  rewrite E. reflexivity.
Qed.

(** Rounding is monotone. *)
Lemma py_round_mono (x y : Q) (n : nat) :
  x <= y -> py_round x n <= py_round y n.
Proof.
  intro H. unfold py_round.
  rewrite !Qred_correct.
  set (s := Z.to_pos (10 ^ Z.of_nat n)).
  assert (Hm : (round_half_even (x * inject_Z (Z.pos s))
                <= round_half_even (y * inject_Z (Z.pos s)))%Z).
  { apply round_half_even_mono. apply Qmult_le_compat_r; [exact H|].
    unfold Qle. simpl. lia. }
  unfold Qle. simpl. nia.
Qed.

End NumFacts.

(* ------------------------------------------------------------------------- *)
(** ** Tier selection *)
(* ------------------------------------------------------------------------- *)

Section TierFacts.
Open Scope Q_scope.

Lemma scan_tiers_first (amount : Q) (pre post : list rate_tier) (t : rate_tier) :
  Forall (fun u => bound_lt (max_amount u) amount) pre ->
  bound_ge (max_amount t) amount ->
  scan_tiers amount (pre ++ t :: post)%list = Some (rate t).
Proof.
  intros Hpre Ht. induction Hpre as [|u pre Hu _ IH]; simpl.
  - apply le_bound_true in Ht. rewrite Ht. reflexivity.
  - apply le_bound_false in Hu. rewrite Hu. exact IH.
Qed.

Lemma scan_tiers_none (amount : Q) (tiers : list rate_tier) :
  Forall (fun u => bound_lt (max_amount u) amount) tiers ->
  scan_tiers amount tiers = None.
Proof.
  induction 1 as [|u tiers Hu _ IH]; simpl; [reflexivity|].
  apply le_bound_false in Hu. rewrite Hu. exact IH.
Qed.

Lemma last_tier_snoc (pre : list rate_tier) (t : rate_tier) :
  last_tier (pre ++ [t])%list = Ok t.
Proof.
  unfold last_tier. rewrite rev_app_distr. reflexivity.
Qed.

Lemma last_tier_nonempty (tiers : list rate_tier) :
  tiers <> [] -> exists t, last_tier tiers = Ok t.
Proof.
  intro H. destruct (exists_last H) as (pre & t & ->).
  exists t. apply last_tier_snoc.
Qed.

(** With no empty tier list in the catalog, tier selection returns. *)
Lemma calculate_tiered_rate_returns
  (P : PyDict.dict channel_config) (T : PyDict.dict (list rate_tier))
  (amount : Q) (channel_id : string) :
  (forall tiers, PyDict.get T channel_id = Some tiers -> tiers <> []) ->
  exists r, calculate_tiered_rate P T amount channel_id = Ok r.
Proof.
  intro Hne. unfold calculate_tiered_rate.
  destruct (PyDict.get T channel_id) as [tiers|].
  - destruct (scan_tiers amount tiers) as [r|]; [eauto|].
    destruct (last_tier_nonempty tiers (Hne tiers eq_refl)) as [t ->].
    simpl. eauto.
  - destruct (PyDict.get P channel_id); eauto.
Qed.

(** C2: on a channel that has tiers, [calculate_tiered_rate] returns the
    rate of the first tier whose bound is at least the amount (a bound
    equal to the amount counts), and the rate of the last tier when the
    amount exceeds every bound.  Neither part needs the tiers to be
    ascending. *)
Theorem C2_tiered_rate_first_fit
  (P : PyDict.dict channel_config) (T : PyDict.dict (list rate_tier))
  (amount : Q) (channel_id : string) (tiers : list rate_tier) :
  PyDict.get T channel_id = Some tiers ->
  (forall pre t post,
      tiers = (pre ++ t :: post)%list ->
      Forall (fun u => bound_lt (max_amount u) amount) pre ->
      bound_ge (max_amount t) amount ->
      calculate_tiered_rate P T amount channel_id = Ok (rate t)) /\
  (forall pre t,
      tiers = (pre ++ [t])%list ->
      Forall (fun u => bound_lt (max_amount u) amount) tiers ->
      calculate_tiered_rate P T amount channel_id = Ok (rate t)).
Proof.
  intro Hget. unfold calculate_tiered_rate. rewrite Hget. split.
  - intros pre t post -> Hpre Ht.
    rewrite scan_tiers_first by assumption. reflexivity.
  - intros pre t -> Hall.
    rewrite scan_tiers_none by assumption. rewrite last_tier_snoc. reflexivity.
Qed.

(** The scenario of C2 (amount 10000 on ["bank_transfer"] selects 0.015),
    an amount above the third bound, and a tier list without an infinite
    bound whose last rate is the fallback. *)
Lemma C2_tiered_rate_first_fit_witness :
  calculate_tiered_rate Sample.PAYMENT_CHANNELS Sample.TIERED_RATES
    10000 "bank_transfer" = Ok (15 # 1000) /\
  calculate_tiered_rate Sample.PAYMENT_CHANNELS Sample.TIERED_RATES
    100001 "bank_transfer" = Ok (8 # 1000) /\
  calculate_tiered_rate []
    [("c", [ {| max_amount := Fin 10; rate := 3 # 100 |};
             {| max_amount := Fin 20; rate := 2 # 100 |} ])]
    21 "c" = Ok (2 # 100).
Proof.
  split; [|split].
  - apply (proj1 (@C2_tiered_rate_first_fit Sample.PAYMENT_CHANNELS
                    Sample.TIERED_RATES 10000 "bank_transfer" _ eq_refl)
             [] {| max_amount := Fin 10000; rate := 15 # 1000 |} _ eq_refl).
    + constructor.
    + simpl. lra.
  - apply (proj1 (@C2_tiered_rate_first_fit Sample.PAYMENT_CHANNELS
                    Sample.TIERED_RATES 100001 "bank_transfer" _ eq_refl)
             [ {| max_amount := Fin 10000; rate := 15 # 1000 |};
               {| max_amount := Fin 50000; rate := 12 # 1000 |};
               {| max_amount := Fin 100000; rate := 10 # 1000 |} ]
             {| max_amount := PosInf; rate := 8 # 1000 |} [] eq_refl).
    + repeat constructor; simpl; lra.
    + exact I.
  - apply (proj2 (@C2_tiered_rate_first_fit []
                    [("c", [ {| max_amount := Fin 10; rate := 3 # 100 |};
                             {| max_amount := Fin 20; rate := 2 # 100 |} ])]
                    21 "c" _ eq_refl)
             [ {| max_amount := Fin 10; rate := 3 # 100 |} ]
             {| max_amount := Fin 20; rate := 2 # 100 |} eq_refl).
    repeat constructor; simpl; lra.
Defined.

End TierFacts.

(* ------------------------------------------------------------------------- *)
(** ** The channel fee *)
(* ------------------------------------------------------------------------- *)

Section FeeFacts.
Open Scope Q_scope.

Variable P : PyDict.dict channel_config.
Variable T : PyDict.dict (list rate_tier).

(** The two simple fee functions of the module return 0 for an amount
    that is not positive. *)
Lemma calculate_simple_fee_nonpositive (amount rate0 : Q) :
  amount <= 0 -> calculate_simple_fee amount rate0 = 0.
Proof.
  intro H. unfold calculate_simple_fee.
  apply Qle_bool_iff in H. rewrite H. reflexivity.
Qed.

Lemma calculate_fee_with_minimum_nonpositive (amount rate0 min_fee : Q) :
  amount <= 0 -> calculate_fee_with_minimum amount rate0 min_fee = 0.
Proof.
  intro H. unfold calculate_fee_with_minimum.
  apply Qle_bool_iff in H. rewrite H. reflexivity.
Qed.

(** A successful fee computation is the clamp of
    [amount * rate + fixed_fee], rounded to cents, on an enabled channel
    of the catalog. *)
Lemma calculate_channel_fee_ok_inv
  (amount : Q) (channel_id : string) (use_tiered_rate : bool) (r : fee_ok) :
  calculate_channel_fee P T amount channel_id use_tiered_rate = Ok (FeeOk r) ->
  exists c,
    PyDict.get P channel_id = Some c /\
    get_default (cfg_is_active c) true = true /\
    let calculated := amount * fee_rate r + get_default (cfg_fixed_fee c) 0 in
    let min_fee := get_default (cfg_min_fee c) 0 in
    let max_fee := get_default (cfg_max_fee c) 0 in
    fee_final_fee r =
      py_round (if Qlt_bool 0 min_fee && Qlt_bool calculated min_fee
                then min_fee
                else if Qlt_bool 0 max_fee && Qlt_bool max_fee calculated
                     then max_fee
                     else calculated) 2.
Proof.
  unfold calculate_channel_fee.
  destruct (PyDict.get P channel_id) as [c|]; [|discriminate].
  destruct (get_default (cfg_is_active c) true) eqn:Hact; simpl;
    [|discriminate].
  destruct (if use_tiered_rate && PyDict.mem T channel_id
            then calculate_tiered_rate P T amount channel_id
            else Ok (cfg_base_rate c)) as [rate0|e]; simpl; [|discriminate].
  intro H. exists c. split; [reflexivity|]. split; [exact Hact|].
  cbv zeta.
  destruct (Qlt_bool 0 (get_default (cfg_min_fee c) 0)
            && Qlt_bool (amount * rate0 + get_default (cfg_fixed_fee c) 0)
                        (get_default (cfg_min_fee c) 0)) eqn:Hmin;
    [|destruct (Qlt_bool 0 (get_default (cfg_max_fee c) 0)
                && Qlt_bool (get_default (cfg_max_fee c) 0)
                            (amount * rate0 + get_default (cfg_fixed_fee c) 0))
        eqn:Hmax];
    injection H as <-; simpl; rewrite Hmin; try rewrite Hmax; reflexivity.
Qed.

(** On a known channel, with no empty tier list for it in the catalog,
    the fee computation returns a dictionary. *)
Lemma calculate_channel_fee_returns
  (amount : Q) (channel_id : string) (use_tiered_rate : bool) :
  (forall tiers, PyDict.get T channel_id = Some tiers -> tiers <> []) ->
  exists res, calculate_channel_fee P T amount channel_id use_tiered_rate
              = Ok res.
Proof.
  intro Hne. unfold calculate_channel_fee.
  destruct (PyDict.get P channel_id) as [c|]; [|eauto].
  destruct (negb (get_default (cfg_is_active c) true)); [eauto|].
  destruct (use_tiered_rate && PyDict.mem T channel_id).
  - destruct (calculate_tiered_rate_returns P T amount channel_id Hne)
      as [r0 ->].
    simpl. destruct (_ && _); [|destruct (_ && _)]; eauto.
  - simpl. destruct (_ && _); [|destruct (_ && _)]; eauto.
Qed.

End FeeFacts.

Section FeeClaims.
Open Scope Q_scope.

(** C1: [calculate_channel_fee] has no guard on the amount: with amount 0
    on ["swift"] (fixed fee 30, minimum 80) the final fee is 80, and with
    amount -100 on ["alipay"] (rate 0.02, no clamp) it is -2; neither is
    the zero fee the simple fee functions return. *)
Theorem C1_channel_fee_nonpositive_amount :
  (exists r,
      calculate_channel_fee Sample.PAYMENT_CHANNELS Sample.TIERED_RATES
        0 "swift" true = Ok (FeeOk r) /\
      fee_final_fee r = 80 /\ ~ fee_final_fee r == 0) /\
  (exists r,
      calculate_channel_fee Sample.PAYMENT_CHANNELS Sample.TIERED_RATES
        (-100) "alipay" true = Ok (FeeOk r) /\
      fee_final_fee r = -2 /\ ~ fee_final_fee r == 0) /\
  calculate_simple_fee (-100) (2 # 100) = 0 /\
  calculate_fee_with_minimum 0 (15 # 1000) 80 = 0.
Proof.
  split; [|split; [|split]].
  - eexists. split; [vm_compute; reflexivity|].
    split; [reflexivity|]. simpl. intro H. discriminate H.
  - eexists. split; [vm_compute; reflexivity|].
    split; [reflexivity|]. simpl. intro H. discriminate H.
  - apply calculate_simple_fee_nonpositive. lra.
  - apply calculate_fee_with_minimum_nonpositive. lra.
Qed.

(** C3, as stated, fails: with a minimum (50) above the maximum (20) the
    minimum wins, and a maximum of 0.007 is returned rounded to 0.01. *)
Lemma C3_final_fee_above_max :
  (exists c r,
      PyDict.get Sample.CLAMP_CHANNELS "inverted" = Some c /\
      cfg_max_fee c = Some 20 /\
      calculate_channel_fee Sample.CLAMP_CHANNELS [] 100 "inverted" true
        = Ok (FeeOk r) /\
      fee_final_fee r = 50 /\ ~ fee_final_fee r <= 20) /\
  (exists c r,
      PyDict.get Sample.CLAMP_CHANNELS "subcent" = Some c /\
      cfg_max_fee c = Some (7 # 1000) /\
      calculate_channel_fee Sample.CLAMP_CHANNELS [] 100 "subcent" true
        = Ok (FeeOk r) /\
      fee_final_fee r = 1 # 100 /\ ~ fee_final_fee r <= 7 # 1000).
Proof.
  split; do 2 eexists;
    (split; [reflexivity|]); (split; [reflexivity|]);
    (split; [vm_compute; reflexivity|]); (split; [reflexivity|]);
    simpl; intro H; vm_compute in H; apply H; reflexivity.
Qed.

(** C3, amended: on a channel with a positive maximum fee and a minimum
    fee that is not above it, the final fee is at most the maximum fee
    rounded to cents, hence at most the maximum fee itself when that is a
    whole number of cents. *)
Theorem C3_final_fee_at_most_max
  (P : PyDict.dict channel_config) (T : PyDict.dict (list rate_tier))
  (amount : Q) (channel_id : string) (use_tiered_rate : bool)
  (c : channel_config) (r : fee_ok) :
  PyDict.get P channel_id = Some c ->
  0 < get_default (cfg_max_fee c) 0 ->
  get_default (cfg_min_fee c) 0 <= get_default (cfg_max_fee c) 0 ->
  calculate_channel_fee P T amount channel_id use_tiered_rate = Ok (FeeOk r) ->
  fee_final_fee r <= py_round (get_default (cfg_max_fee c) 0) 2 /\
  (py_round (get_default (cfg_max_fee c) 0) 2 == get_default (cfg_max_fee c) 0 ->
   fee_final_fee r <= get_default (cfg_max_fee c) 0).
Proof.
  intros Hget Hmax Hmin Hfee.
  destruct (calculate_channel_fee_ok_inv P T _ _ _ _ Hfee)
    as (c' & Hget' & _ & Hfinal).
  rewrite Hget in Hget'. injection Hget' as <-.
  cbv zeta in Hfinal.
  assert (Hle : fee_final_fee r <= py_round (get_default (cfg_max_fee c) 0) 2).
  { rewrite Hfinal. apply py_round_mono.
    destruct (Qlt_bool 0 (get_default (cfg_min_fee c) 0) && _); [exact Hmin|].
    destruct (Qlt_bool 0 (get_default (cfg_max_fee c) 0)) eqn:Hpos; simpl.
    - destruct (Qlt_bool (get_default (cfg_max_fee c) 0) _) eqn:Hcmp.
      + apply Qle_refl.
      + apply Qlt_bool_false_iff in Hcmp. exact Hcmp.
    - apply Qlt_bool_iff in Hmax. congruence. }
  split; [exact Hle|].
  intro Hcents. rewrite <- Hcents. exact Hle.
Qed.

(** C3 on ["swift"] (minimum 80, maximum 800): an amount of 1000000 is
    charged 800. *)
Lemma C3_final_fee_at_most_max_witness :
  exists c r,
    PyDict.get Sample.PAYMENT_CHANNELS "swift" = Some c /\
    calculate_channel_fee Sample.PAYMENT_CHANNELS Sample.TIERED_RATES
      1000000 "swift" true = Ok (FeeOk r) /\
    fee_final_fee r = 800 /\
    fee_final_fee r <= get_default (cfg_max_fee c) 0.
Proof.
  do 2 eexists.
  split; [reflexivity|]. split; [vm_compute; reflexivity|].
  split; [reflexivity|].
  refine (proj2 (C3_final_fee_at_most_max Sample.PAYMENT_CHANNELS
                   Sample.TIERED_RATES 1000000 "swift" true _ _
                   eq_refl _ _ _) _).
  - simpl. lra.
  - simpl. lra.
  - vm_compute. reflexivity.
  - vm_compute. reflexivity.
Defined.

(** C7: an unknown channel, a disabled channel and an unsupported
    currency are each reported by a returned dictionary whose success
    flag is false and that carries a message; nothing is raised. *)
Theorem C7_failures_are_returned
  (P : PyDict.dict channel_config) (T : PyDict.dict (list rate_tier))
  (E : PyDict.dict Q)
  (amount : Q) (channel_id : string) (use_tiered_rate : bool)
  (from_currency to_currency : string) (spread_rate : Q) :
  (PyDict.get P channel_id = None ->
   calculate_channel_fee P T amount channel_id use_tiered_rate
     = Ok (FeeError ("未知的支付通道: " ++ channel_id)%string)) /\
  (forall c,
      PyDict.get P channel_id = Some c ->
      get_default (cfg_is_active c) true = false ->
      calculate_channel_fee P T amount channel_id use_tiered_rate
        = Ok (FeeError ("支付通道已停用: " ++ channel_id)%string)) /\
  (PyDict.get E from_currency = None ->
   calculate_exchange_cost E amount from_currency to_currency spread_rate
     = ExchangeError ("不支持的货币: " ++ from_currency)%string) /\
  (forall e, fee_success (FeeError e) = false) /\
  (forall e, exchange_success (ExchangeError e) = false).
Proof.
  split; [|split; [|split; [|split]]].
  - intro H. unfold calculate_channel_fee. rewrite H. reflexivity.
  - intros c H Hact. unfold calculate_channel_fee. rewrite H, Hact.
    reflexivity.
  - intro H. unfold calculate_exchange_cost. rewrite H. reflexivity.
  - reflexivity.
  - reflexivity.
Qed.

(** C7 on the sample catalogs: the channel ["nope"] is unknown,
    ["legacy_wire"] is disabled, and no rate exists for ["XYZ"]. *)
Lemma C7_failures_are_returned_witness :
  calculate_channel_fee Sample.PAYMENT_CHANNELS Sample.TIERED_RATES
    100 "nope" true = Ok (FeeError "未知的支付通道: nope") /\
  calculate_channel_fee Sample.PAYMENT_CHANNELS Sample.TIERED_RATES
    100 "legacy_wire" true = Ok (FeeError "支付通道已停用: legacy_wire") /\
  calculate_exchange_cost Sample.EXCHANGE_RATES 100 "XYZ" "CNY" (5 # 1000)
    = ExchangeError "不支持的货币: XYZ".
Proof.
  pose proof (C7_failures_are_returned Sample.PAYMENT_CHANNELS
                Sample.TIERED_RATES Sample.EXCHANGE_RATES
                100 "nope" true "XYZ" "CNY" (5 # 1000)) as (H1 & _ & H3 & _).
  pose proof (C7_failures_are_returned Sample.PAYMENT_CHANNELS
                Sample.TIERED_RATES Sample.EXCHANGE_RATES
                100 "legacy_wire" true "XYZ" "CNY" (5 # 1000)) as (_ & H2 & _).
  split; [exact (H1 eq_refl)|].
  split; [exact (H2 _ eq_refl eq_refl)|].
  exact (H3 eq_refl).
Defined.

End FeeClaims.

(* ------------------------------------------------------------------------- *)
(** ** The exchange cost *)
(* ------------------------------------------------------------------------- *)

Section ExchangeFacts.
Open Scope Q_scope.

Variable E : PyDict.dict Q.

(** C4: for a supported currency with a non-negative reference rate and
    an amount that is not negative, the actual amount is at most the
    market amount when the spread is positive, and the two are equal when
    the spread is zero. *)
Theorem C4_actual_amount_at_most_market
  (amount : Q) (from_currency to_currency : string)
  (spread_rate market_rate : Q) :
  PyDict.get E from_currency = Some market_rate ->
  0 <= market_rate ->
  0 <= amount ->
  exists r,
    calculate_exchange_cost E amount from_currency to_currency spread_rate
      = ExchangeOk r /\
    (0 < spread_rate -> ex_actual_amount r <= ex_market_amount r) /\
    (spread_rate == 0 -> ex_actual_amount r == ex_market_amount r).
Proof.
  intros Hget Hrate Hamount.
  unfold calculate_exchange_cost. rewrite Hget.
  eexists. split; [reflexivity|]. simpl. split.
  - intro Hs. apply py_round_mono.
    assert (H1 : 0 <= amount * market_rate)
      by (apply Qmult_le_0_compat; assumption).
    assert (H2 : 0 <= amount * market_rate * spread_rate)
      by (apply Qmult_le_0_compat; [assumption | apply Qlt_le_weak, Hs]).
    assert (H3 : amount * (market_rate * (1 - spread_rate))
                 == amount * market_rate - amount * market_rate * spread_rate)
      by ring.
    rewrite H3. lra.
  - intro Hs.
    rewrite (py_round_comp (amount * (market_rate * (1 - spread_rate)))
               (amount * market_rate) 2); [reflexivity|].
    rewrite Hs. ring.
Qed.

(** C9: the argument [to_currency] is only echoed: changing it changes
    the ["to_currency"] field of the result and nothing else. *)
Theorem C9_to_currency_only_echoed
  (amount : Q) (from_currency to1 to2 : string) (spread_rate : Q) :
  with_to_currency to2
    (calculate_exchange_cost E amount from_currency to1 spread_rate)
  = calculate_exchange_cost E amount from_currency to2 spread_rate.
Proof.
  unfold calculate_exchange_cost.
  destruct (PyDict.get E from_currency); reflexivity.
Qed.

(** C8, amended: with a market rate of 7.25 for USD, an amount of 1000
    and a spread of 0.005, the result has actual rate 7.2138 (7.21375
    rounded to four decimals), market amount 7250.00, actual amount
    7213.75 and exchange loss 36.25. *)
Theorem C8_usd_scenario (to_currency : string) (market_rate : Q) :
  PyDict.get E "USD" = Some market_rate ->
  market_rate == 7.25 ->
  exists r,
    calculate_exchange_cost E 1000 "USD" to_currency 0.005 = ExchangeOk r /\
    ex_actual_rate r == 7.2138 /\
    ex_market_amount r == 7250.00 /\
    ex_actual_amount r == 7213.75 /\
    ex_exchange_loss r == 36.25.
Proof.
  intros Hget Hrate.
  unfold calculate_exchange_cost. rewrite Hget.
  eexists. split; [reflexivity|]. simpl.
  rewrite (py_round_comp (market_rate * (1 - 0.005)) (7.25 * (1 - 0.005)) 4)
    by (rewrite Hrate; reflexivity).
  rewrite (py_round_comp (1000 * market_rate) (1000 * 7.25) 2)
    by (rewrite Hrate; reflexivity).
  rewrite (py_round_comp (1000 * (market_rate * (1 - 0.005)))
             (1000 * (7.25 * (1 - 0.005))) 2)
    by (rewrite Hrate; reflexivity).
  rewrite (py_round_comp
             (1000 * market_rate - 1000 * (market_rate * (1 - 0.005)))
             (1000 * 7.25 - 1000 * (7.25 * (1 - 0.005))) 2)
    by (rewrite Hrate; reflexivity).
  repeat split; vm_compute; reflexivity.
Qed.

End ExchangeFacts.

Section ExchangeExamples.
Open Scope Q_scope.

(** C4 on the sample rates, for 1000 USD: with the default spread the
    actual amount is below the market amount, with no spread they are
    equal. *)
Lemma C4_actual_amount_at_most_market_witness :
  (exists r,
      calculate_exchange_cost Sample.EXCHANGE_RATES 1000 "USD" "CNY" (5 # 1000)
        = ExchangeOk r /\
      ex_actual_amount r <= ex_market_amount r) /\
  (exists r,
      calculate_exchange_cost Sample.EXCHANGE_RATES 1000 "USD" "CNY" 0
        = ExchangeOk r /\
      ex_actual_amount r == ex_market_amount r).
Proof.
  split.
  - destruct (C4_actual_amount_at_most_market Sample.EXCHANGE_RATES
                1000 "USD" "CNY" (5 # 1000) (725 # 100) eq_refl)
      as (r & Hr & Hpos & _); [lra | lra |].
    exists r. split; [exact Hr|]. apply Hpos. lra.
  - destruct (C4_actual_amount_at_most_market Sample.EXCHANGE_RATES
                1000 "USD" "CNY" 0 (725 # 100) eq_refl)
      as (r & Hr & _ & Hzero); [lra | lra |].
    exists r. split; [exact Hr|]. apply Hzero. reflexivity.
Defined.

(** C8, as stated, fails on the actual rate: the returned rate has four
    decimals and is not 7.21375. *)
Lemma C8_actual_rate_not_five_decimals :
  exists r,
    calculate_exchange_cost Sample.EXCHANGE_RATES 1000 "USD" "CNY" 0.005
      = ExchangeOk r /\
    ex_actual_rate r = 36069 # 5000 /\
    ~ ex_actual_rate r == 7.21375.
Proof.
  eexists. split; [vm_compute; reflexivity|].
  split; [reflexivity|].
  simpl. intro H. vm_compute in H. discriminate H.
Qed.

(** C8 on the sample rates. *)
Lemma C8_usd_scenario_witness :
  exists r,
    calculate_exchange_cost Sample.EXCHANGE_RATES 1000 "USD" "CNY" 0.005
      = ExchangeOk r /\
    ex_actual_rate r == 7.2138 /\
    ex_market_amount r == 7250.00 /\
    ex_actual_amount r == 7213.75 /\
    ex_exchange_loss r == 36.25.
Proof.
  apply (C8_usd_scenario Sample.EXCHANGE_RATES "CNY" (725 # 100) eq_refl).
  reflexivity.
Defined.

End ExchangeExamples.

(* ------------------------------------------------------------------------- *)
(** ** Sorting and ranking *)
(* ------------------------------------------------------------------------- *)

Section SortFacts.
Open Scope Q_scope.

Variable A : Type.
Variable key : A -> Q.

Lemma insert_by_perm (x : A) (l : list A) :
  Permutation (insert_by key x l) (x :: l).
Proof.
  induction l as [|y l IH]; simpl; [apply Permutation_refl|].
  destruct (Qle_bool (key x) (key y)); [apply Permutation_refl|].
  apply Permutation_trans with (y :: x :: l).
  - apply perm_skip, IH.
  - apply perm_swap.
Qed.

Lemma sorted_perm (l : list A) : Permutation (sorted key l) l.
Proof.
  induction l as [|x l IH]; simpl; [apply perm_nil|].
  apply Permutation_trans with (x :: sorted key l).
  - apply insert_by_perm.
  - apply perm_skip, IH.
Qed.

Lemma insert_by_sorted (x : A) (l : list A) :
  StronglySorted (fun a b => key a <= key b) l ->
  StronglySorted (fun a b => key a <= key b) (insert_by key x l).
Proof.
  induction 1 as [|y l Hs IH Hy]; simpl.
  - constructor; constructor.
  - destruct (Qle_bool (key x) (key y)) eqn:Hxy.
    + apply Qle_bool_iff in Hxy.
      constructor; [constructor; assumption|].
      constructor; [exact Hxy|].
      apply Forall_impl with (P := fun b => key y <= key b); [|exact Hy].
      intros a Ha. simpl in Ha. lra.
    + constructor; [exact IH|].
      apply (Permutation_Forall (Permutation_sym (insert_by_perm x l))).
      constructor; [|exact Hy].
      destruct (Qlt_le_dec (key y) (key x)) as [Hlt|Hle].
      * apply Qlt_le_weak, Hlt.
      * apply Qle_bool_iff in Hle. congruence.
Qed.

Lemma sorted_sorted (l : list A) :
  StronglySorted (fun a b => key a <= key b) (sorted key l).
Proof.
  induction l as [|x l IH]; simpl; [constructor|].
  apply insert_by_sorted, IH.
Qed.

(** Stability: among the elements of one key, insertion puts the new
    element first and leaves the others in place. *)
Lemma filter_insert_by (c : Q) (x : A) (l : list A) :
  filter (fun a => Qeq_bool (key a) c) (insert_by key x l)
  = filter (fun a => Qeq_bool (key a) c) (x :: l).
Proof.
  induction l as [|y l IH]; [reflexivity|].
  simpl insert_by.
  destruct (Qle_bool (key x) (key y)) eqn:Hxy; [reflexivity|].
  change (filter (fun a => Qeq_bool (key a) c) (y :: insert_by key x l))
    with (if Qeq_bool (key y) c
          then y :: filter (fun a => Qeq_bool (key a) c) (insert_by key x l)
          else filter (fun a => Qeq_bool (key a) c) (insert_by key x l)).
  rewrite IH. simpl.
  destruct (Qeq_bool (key x) c) eqn:Hx; [|reflexivity].
  destruct (Qeq_bool (key y) c) eqn:Hy; [|reflexivity].
  apply Qeq_bool_iff in Hx. apply Qeq_bool_iff in Hy.
  assert (Hle : key x <= key y) by (rewrite Hx, Hy; apply Qle_refl).
  apply Qle_bool_iff in Hle. congruence.
Qed.

Lemma filter_sorted (c : Q) (l : list A) :
  filter (fun a => Qeq_bool (key a) c) (sorted key l)
  = filter (fun a => Qeq_bool (key a) c) l.
Proof.
  induction l as [|x l IH]; [reflexivity|].
  simpl sorted. rewrite filter_insert_by. simpl. rewrite IH. reflexivity.
Qed.

End SortFacts.

Section RankFacts.
Open Scope Q_scope.

Lemma assign_ranks_from_clear (i : nat) (l : list comparison_entry) :
  map clear_rank (assign_ranks_from i l) = map clear_rank l.
Proof.
  revert i. induction l as [|e l IH]; intro i; simpl; [reflexivity|].
  rewrite IH. reflexivity.
Qed.

Lemma assign_ranks_from_nth (i n : nat) (l : list comparison_entry)
  (e : comparison_entry) :
  nth_error (assign_ranks_from i l) n = Some e ->
  ce_rank e = Some (i + n + 1)%nat.
Proof.
  revert i n. induction l as [|a l IH]; intros i n H.
  - destruct n; discriminate H.
  - destruct n as [|n]; simpl in H.
    + injection H as <-. simpl. f_equal. lia.
    + apply IH in H. rewrite H. f_equal. lia.
Qed.

(** A property of entries that ignores the rank passes through
    [clear_rank]. *)
Lemma sorted_by_cost_clear (l : list comparison_entry) :
  StronglySorted (fun a b => ce_total_cost a <= ce_total_cost b)
    (map clear_rank l) ->
  StronglySorted (fun a b => ce_total_cost a <= ce_total_cost b) l.
Proof.
  induction l as [|e l IH]; simpl; intro H; [constructor|].
  inversion H as [|? ? Hs Hall]; subst.
  constructor; [apply IH, Hs|].
  rewrite Forall_map in Hall. exact Hall.
Qed.

Lemma with_cost_clear (c : Q) (l : list comparison_entry) :
  map clear_rank (with_cost c l) = with_cost c (map clear_rank l).
Proof.
  unfold with_cost. induction l as [|e l IH]; simpl; [reflexivity|].
  destruct (Qeq_bool (ce_total_cost e) c); simpl; rewrite IH; reflexivity.
Qed.

Lemma clear_rank_id (l : list comparison_entry) :
  Forall (fun e => ce_rank e = None) l -> map clear_rank l = l.
Proof.
  induction 1 as [|e l He _ IH]; simpl; [reflexivity|].
  rewrite IH. f_equal. destruct e. simpl in He. subst. reflexivity.
Qed.

End RankFacts.

(* ------------------------------------------------------------------------- *)
(** ** The comparison of channels *)
(* ------------------------------------------------------------------------- *)

Section CompareFacts.
Open Scope Q_scope.

Variable P : PyDict.dict channel_config.
Variable T : PyDict.dict (list rate_tier).
Variable E : PyDict.dict Q.

Lemma calculate_total_cost_returns
  (amount : Q) (currency channel_id : string) (spread_rate : Q) :
  tiers_nonempty T ->
  exists r, calculate_total_cost P T E amount currency channel_id spread_rate
            = Ok r.
Proof.
  intro Hne. unfold calculate_total_cost.
  destruct (calculate_channel_fee_returns P T amount channel_id true
              (Hne channel_id)) as [res ->].
  simpl. destruct res as [e|f]; [eauto|].
  destruct (negb (String.eqb currency "CNY")); [|eauto].
  destruct (calculate_exchange_cost E amount currency "CNY" spread_rate);
    eauto.
Qed.

Lemma collect_results_returns
  (amount : Q) (currency : string) (channel_ids : list string) :
  tiers_nonempty T ->
  exists results,
    collect_results P T E amount currency channel_ids = Ok results.
Proof.
  intro Hne. induction channel_ids as [|id ids [rest IH]]; simpl; [eauto|].
  destruct (PyDict.get P id) as [c|]; [|eauto].
  destruct (negb (str_in currency _)); [eauto|].
  destruct (calculate_total_cost_returns amount currency id
              default_spread_rate Hne) as [r ->].
  rewrite IH. simpl. destruct r; eauto.
Qed.

(** What the loop collects: one entry, without rank, for each iterated
    channel that supports the currency and whose total cost succeeds, in
    the order of the iteration. *)
Lemma collect_results_spec
  (amount : Q) (currency : string) (channel_ids : list string)
  (results : list comparison_entry) :
  collect_results P T E amount currency channel_ids = Ok results ->
  map ce_channel_id results
  = filter (fun id => supports P currency id
                      && cost_succeeds P T E amount currency id)
      channel_ids /\
  Forall (fun e => ce_rank e = None) results /\
  Forall (entry_of_cost P T E amount currency) results.
Proof.
  revert results.
  induction channel_ids as [|id ids IH]; intros results H; simpl in H.
  - injection H as <-. repeat split; constructor.
  - simpl filter. unfold supports at 1.
    destruct (PyDict.get P id) as [c|] eqn:Hget; [|apply IH, H].
    destruct (str_in currency (get_default (cfg_supported_currencies c) []))
      eqn:Hsup; simpl in H; [|apply IH, H].
    unfold cost_succeeds at 1.
    destruct (calculate_total_cost P T E amount currency id
                default_spread_rate) as [r|x] eqn:Hcost;
      simpl in H; [|discriminate H].
    destruct (collect_results P T E amount currency ids) as [rest|x]
      eqn:Hrest; simpl in H; [|discriminate H].
    destruct (IH rest eq_refl) as (Hids & Hrank & Hentries).
    destruct r as [e|a cu ch f fr e|tc]; simpl;
      injection H as <-; try (repeat split; assumption).
    simpl. rewrite Hids. repeat split.
    + constructor; [reflexivity | exact Hrank].
    + constructor; [|exact Hentries].
      exists c, tc. simpl. repeat split; assumption.
Qed.

Lemma collect_results_unsupported
  (amount : Q) (currency : string) (channel_ids : list string) :
  (forall id, In id channel_ids -> supports P currency id = false) ->
  collect_results P T E amount currency channel_ids = Ok [].
Proof.
  induction channel_ids as [|id ids IH]; intro H; simpl; [reflexivity|].
  assert (Hrest : collect_results P T E amount currency ids = Ok [])
    by (apply IH; intros i Hi; apply H; right; exact Hi).
  specialize (H id (or_introl eq_refl)). unfold supports in H.
  destruct (PyDict.get P id) as [c|]; [|exact Hrest].
  rewrite H. simpl. exact Hrest.
Qed.

Lemma compare_channel_fees_inv
  (amount : Q) (currency : string) (channel_ids : option (list string))
  (out : list comparison_entry) :
  compare_channel_fees P T E amount currency channel_ids = Ok out ->
  exists results,
    collect_results P T E amount currency (iterated_ids P channel_ids)
      = Ok results /\
    out = assign_ranks (sorted ce_total_cost results).
Proof.
  unfold compare_channel_fees. fold (iterated_ids P channel_ids).
  destruct (collect_results P T E amount currency
              (iterated_ids P channel_ids)) as [results|x];
    simpl; intro H; [|discriminate H].
  injection H as <-. exists results. split; reflexivity.
Qed.

Lemma compare_channel_fees_returns
  (amount : Q) (currency : string) (channel_ids : option (list string)) :
  tiers_nonempty T ->
  exists out,
    compare_channel_fees P T E amount currency channel_ids = Ok out.
Proof.
  intro Hne. unfold compare_channel_fees. fold (iterated_ids P channel_ids).
  destruct (collect_results_returns amount currency
              (iterated_ids P channel_ids) Hne) as [results ->].
  simpl. eauto.
Qed.

(** The output without its ranks is the sorted list of collected
    entries. *)
Lemma clear_rank_output (results : list comparison_entry) :
  Forall (fun e => ce_rank e = None) results ->
  map clear_rank (assign_ranks (sorted ce_total_cost results))
  = sorted ce_total_cost results.
Proof.
  intro Hrank. unfold assign_ranks. rewrite assign_ranks_from_clear.
  apply clear_rank_id.
  apply (Permutation_Forall
           (Permutation_sym (sorted_perm _ ce_total_cost results))).
  exact Hrank.
Qed.

End CompareFacts.

Section CompareClaims.
Open Scope Q_scope.

Variable P : PyDict.dict channel_config.
Variable T : PyDict.dict (list rate_tier).
Variable E : PyDict.dict Q.

(** C5: the list [compare_channel_fees] returns is ascending in
    ["total_cost"], the ["rank"] of the entry at index [i] is [i + 1],
    and the entries of any one total cost are, rank apart, the collected
    entries of that cost in the order of the iteration over the channels.
    With no empty tier list in the catalog the function returns. *)
Theorem C5_comparison_sorted_ranked_stable
  (amount : Q) (currency : string) (channel_ids : option (list string)) :
  (tiers_nonempty T ->
   exists out,
     compare_channel_fees P T E amount currency channel_ids = Ok out) /\
  (forall out,
      compare_channel_fees P T E amount currency channel_ids = Ok out ->
      StronglySorted (fun a b => ce_total_cost a <= ce_total_cost b) out /\
      (forall i e, nth_error out i = Some e -> ce_rank e = Some (i + 1)%nat) /\
      exists results,
        collect_results P T E amount currency (iterated_ids P channel_ids)
          = Ok results /\
        map ce_channel_id results
        = filter (fun id => supports P currency id
                            && cost_succeeds P T E amount currency id)
            (iterated_ids P channel_ids) /\
        forall c, map clear_rank (with_cost c out) = with_cost c results).
Proof.
  split; [apply compare_channel_fees_returns|].
  intros out Hout.
  destruct (compare_channel_fees_inv P T E _ _ _ _ Hout)
    as (results & Hres & ->).
  destruct (collect_results_spec P T E _ _ _ _ Hres) as (Hids & Hrank & _).
  pose proof (clear_rank_output results Hrank) as Hclear.
  split; [|split].
  - apply sorted_by_cost_clear. rewrite Hclear. apply sorted_sorted.
  - intros i e Hnth. apply (assign_ranks_from_nth 0 i _ _ Hnth).
  - exists results. split; [exact Hres|]. split; [exact Hids|].
    intro c. rewrite with_cost_clear, Hclear.
    apply filter_sorted.
Qed.

(** C6: an empty list of channels, or channels none of which supports
    the currency, give the empty list; [find_cheapest_channel] returns
    [None] exactly when the comparison over the whole catalog is empty,
    and its first entry otherwise. *)
Theorem C6_empty_comparison (amount : Q) (currency : string) :
  compare_channel_fees P T E amount currency (Some []) = Ok [] /\
  (forall channel_ids,
      (forall id, In id (iterated_ids P channel_ids) ->
                  supports P currency id = false) ->
      compare_channel_fees P T E amount currency channel_ids = Ok []) /\
  (find_cheapest_channel P T E amount currency = Ok None <->
   compare_channel_fees P T E amount currency None = Ok []) /\
  (forall first rest,
      compare_channel_fees P T E amount currency None = Ok (first :: rest) ->
      find_cheapest_channel P T E amount currency = Ok (Some first)).
Proof.
  split; [reflexivity|]. split; [|split].
  - intros channel_ids Hnone.
    unfold compare_channel_fees. fold (iterated_ids P channel_ids).
    rewrite collect_results_unsupported by exact Hnone. reflexivity.
  - unfold find_cheapest_channel.
    destruct (compare_channel_fees P T E amount currency None)
      as [[|first rest]|x]; simpl; split; intro H;
      try reflexivity; discriminate H.
  - intros first rest H. unfold find_cheapest_channel. rewrite H.
    reflexivity.
Qed.

Lemma entry_of_cost_clear (amount : Q) (currency : string)
  (e : comparison_entry) :
  entry_of_cost P T E amount currency (clear_rank e) ->
  entry_of_cost P T E amount currency e.
Proof. intro H. exact H. Qed.

(** C10: a channel whose total cost does not succeed leaves no entry in
    the list [compare_channel_fees] returns: the channels of the output
    are, up to order, the iterated channels that support the currency
    and whose total cost succeeds, and every entry carries the figures
    of a successful total cost.  With no empty tier list in the catalog
    the function returns. *)
Theorem C10_failed_channels_omitted
  (amount : Q) (currency : string) (channel_ids : option (list string)) :
  (tiers_nonempty T ->
   exists out,
     compare_channel_fees P T E amount currency channel_ids = Ok out) /\
  (forall out,
      compare_channel_fees P T E amount currency channel_ids = Ok out ->
      Permutation (map ce_channel_id out)
        (filter (fun id => supports P currency id
                           && cost_succeeds P T E amount currency id)
           (iterated_ids P channel_ids)) /\
      Forall (entry_of_cost P T E amount currency) out /\
      (forall id,
          cost_succeeds P T E amount currency id = false ->
          ~ In id (map ce_channel_id out))).
Proof.
  split; [apply compare_channel_fees_returns|].
  intros out Hout.
  destruct (compare_channel_fees_inv P T E _ _ _ _ Hout)
    as (results & Hres & ->).
  destruct (collect_results_spec P T E _ _ _ _ Hres)
    as (Hids & Hrank & Hentries).
  pose proof (clear_rank_output results Hrank) as Hclear.
  assert (Hperm : Permutation
                    (map ce_channel_id
                       (assign_ranks (sorted ce_total_cost results)))
                    (filter (fun id => supports P currency id
                                       && cost_succeeds P T E amount currency id)
                       (iterated_ids P channel_ids))).
  { rewrite <- Hids.
    replace (map ce_channel_id (assign_ranks (sorted ce_total_cost results)))
      with (map ce_channel_id
              (map clear_rank (assign_ranks (sorted ce_total_cost results))))
      by (rewrite map_map; reflexivity).
    rewrite Hclear. apply Permutation_map, sorted_perm. }
  split; [exact Hperm|]. split.
  - apply Forall_forall. intros e He.
    apply entry_of_cost_clear.
    assert (Hin : In (clear_rank e) (sorted ce_total_cost results))
      by (rewrite <- Hclear; apply in_map, He).
    apply (Permutation_in _ (sorted_perm _ ce_total_cost results)) in Hin.
    rewrite Forall_forall in Hentries. apply Hentries, Hin.
  - intros id Hfail Hin.
    apply (Permutation_in _ Hperm) in Hin.
    apply filter_In in Hin. destruct Hin as [_ Hin].
    rewrite Hfail, andb_false_r in Hin. discriminate Hin.
Qed.

End CompareClaims.

Section CompareExamples.
Open Scope Q_scope.

Lemma sample_tiers_nonempty : tiers_nonempty Sample.TIERED_RATES.
Proof.
  intros id tiers H. simpl in H.
  destruct (String.eqb id "bank_transfer"); [|discriminate H].
  injection H as <-. discriminate.
Qed.

(** C5 on the sample catalogs for 10000 USD, over a list of channels
    that names ["alipay"] twice: the two entries tie and keep their
    order behind the cheaper ["swift"]. *)
Lemma C5_comparison_sorted_ranked_stable_witness :
  exists out,
    compare_channel_fees Sample.PAYMENT_CHANNELS Sample.TIERED_RATES
      Sample.EXCHANGE_RATES 10000 "USD"
      (Some ["alipay"; "legacy_wire"; "swift"; "alipay"; "nope"]) = Ok out /\
    map (fun e => (ce_channel_id e, ce_total_cost e, ce_rank e)) out
    = [ ("swift", 83049 # 50, Some 1%nat);
        ("alipay", 90263 # 50, Some 2%nat);
        ("alipay", 90263 # 50, Some 3%nat) ] /\
    StronglySorted (fun a b => ce_total_cost a <= ce_total_cost b) out.
Proof.
  destruct (C5_comparison_sorted_ranked_stable Sample.PAYMENT_CHANNELS
              Sample.TIERED_RATES Sample.EXCHANGE_RATES 10000 "USD"
              (Some ["alipay"; "legacy_wire"; "swift"; "alipay"; "nope"]))
    as [Hex Hprop].
  destruct (Hex sample_tiers_nonempty) as [out Hout].
  exists out. split; [exact Hout|].
  split; [|apply (Hprop out Hout)].
  vm_compute in Hout. injection Hout as <-. reflexivity.
Defined.

(** C6 on the sample catalogs: no channel supports AUD. *)
Lemma C6_empty_comparison_witness :
  compare_channel_fees Sample.PAYMENT_CHANNELS Sample.TIERED_RATES
    Sample.EXCHANGE_RATES 500 "AUD" None = Ok [] /\
  find_cheapest_channel Sample.PAYMENT_CHANNELS Sample.TIERED_RATES
    Sample.EXCHANGE_RATES 500 "AUD" = Ok None.
Proof.
  destruct (C6_empty_comparison Sample.PAYMENT_CHANNELS Sample.TIERED_RATES
              Sample.EXCHANGE_RATES 500 "AUD") as (_ & Hnone & Hiff & _).
  assert (H : compare_channel_fees Sample.PAYMENT_CHANNELS
                Sample.TIERED_RATES Sample.EXCHANGE_RATES 500 "AUD" None
              = Ok []).
  { apply Hnone. intros id Hin. simpl in Hin.
    repeat (destruct Hin as [<- | Hin]; [reflexivity|]).
    destruct Hin. }
  split; [exact H|]. apply Hiff, H.
Defined.

(** C10 on the sample catalogs: for USD the disabled ["legacy_wire"] is
    left out, and for JPY, which ["swift"] supports but which has no
    reference rate, the list is empty. *)
Lemma C10_failed_channels_omitted_witness :
  (exists out,
      compare_channel_fees Sample.PAYMENT_CHANNELS Sample.TIERED_RATES
        Sample.EXCHANGE_RATES 10000 "USD" None = Ok out /\
      supports Sample.PAYMENT_CHANNELS "USD" "legacy_wire" = true /\
      map ce_channel_id out = ["bank_transfer"; "swift"; "alipay"] /\
      ~ In "legacy_wire" (map ce_channel_id out)) /\
  compare_channel_fees Sample.PAYMENT_CHANNELS Sample.TIERED_RATES
    Sample.EXCHANGE_RATES 10000 "JPY" None = Ok [].
Proof.
  split.
  - destruct (C10_failed_channels_omitted Sample.PAYMENT_CHANNELS
                Sample.TIERED_RATES Sample.EXCHANGE_RATES 10000 "USD" None)
      as [Hex Hprop].
    destruct (Hex sample_tiers_nonempty) as [out Hout].
    exists out. split; [exact Hout|]. split; [reflexivity|].
    split.
    + vm_compute in Hout. injection Hout as <-. reflexivity.
    + apply (Hprop out Hout). reflexivity.
  - vm_compute. reflexivity.
Defined.

End CompareExamples.

(* ------------------------------------------------------------------------- *)
(** ** Further properties of the simple fees and of tier selection *)
(* ------------------------------------------------------------------------- *)

Section SimpleFeeProperties.
Open Scope Q_scope.

(** X1: Each label of [get_fee_tier] stands for one interval of amounts; the
    lower ends 1000, 10000 and 100000 belong to the higher tier. *)
Theorem get_fee_tier_intervals (amount : Q) :
  (get_fee_tier amount = "无效金额" <-> amount <= 0) /\
  (get_fee_tier amount = "小额" <-> 0 < amount /\ amount < 1000) /\
  (get_fee_tier amount = "中额" <-> 1000 <= amount /\ amount < 10000) /\
  (get_fee_tier amount = "大额" <-> 10000 <= amount /\ amount < 100000) /\
  (get_fee_tier amount = "超大额" <-> 100000 <= amount).
Proof.
  unfold get_fee_tier.
  destruct (Qle_bool amount 0) eqn:H0;
    [apply Qle_bool_iff in H0
    |assert (H0' : 0 < amount)
        by (apply Qlt_bool_iff; unfold Qlt_bool; rewrite H0; reflexivity);
     clear H0;
     destruct (Qlt_bool amount 1000) eqn:H1;
       [apply Qlt_bool_iff in H1
       |apply Qlt_bool_false_iff in H1;
        destruct (Qlt_bool amount 10000) eqn:H2;
          [apply Qlt_bool_iff in H2
          |apply Qlt_bool_false_iff in H2;
           destruct (Qlt_bool amount 100000) eqn:H3;
             [apply Qlt_bool_iff in H3
             |apply Qlt_bool_false_iff in H3]]]];
    repeat split; intros; try discriminate; try lra.
Qed.

(** X2: [calculate_fee_with_minimum] charges nothing, not even the minimum,
    for an amount that is not positive; for a positive amount it charges
    the larger of the minimum and the simple fee. *)
Theorem calculate_fee_with_minimum_floor (amount rate0 min_fee : Q) :
  (amount <= 0 -> calculate_fee_with_minimum amount rate0 min_fee = 0) /\
  (0 < amount ->
   min_fee <= calculate_fee_with_minimum amount rate0 min_fee /\
   calculate_simple_fee amount rate0
   <= calculate_fee_with_minimum amount rate0 min_fee /\
   (calculate_fee_with_minimum amount rate0 min_fee = min_fee \/
    calculate_fee_with_minimum amount rate0 min_fee
    = calculate_simple_fee amount rate0)).
Proof.
  unfold calculate_fee_with_minimum, calculate_simple_fee. split.
  - intro H. apply Qle_bool_iff in H. rewrite H. reflexivity.
  - intro H.
    assert (Hg : Qle_bool amount 0 = false).
    { apply Qlt_bool_iff in H. unfold Qlt_bool in H.
      destruct (Qle_bool amount 0); [discriminate H | reflexivity]. }
    rewrite Hg.
    destruct (Qlt_bool (amount * rate0) min_fee) eqn:Hm.
    + apply Qlt_bool_iff in Hm.
      split; [apply Qle_refl|]. split; [apply Qlt_le_weak, Hm | left; reflexivity].
    + apply Qlt_bool_false_iff in Hm.
      split; [exact Hm|]. split; [apply Qle_refl | right; reflexivity].
Qed.

(** The scenario amount 100, rate 0.02, minimum 10: the raw fee 2 is
    raised to 10; with amount 0 the fee is 0. *)
Lemma calculate_fee_with_minimum_floor_witness :
  calculate_fee_with_minimum 100 (2 # 100) 10 = 10 /\
  calculate_fee_with_minimum 0 (2 # 100) 10 = 0.
Proof.
  destruct (calculate_fee_with_minimum_floor 0 (2 # 100) 10) as [Hz _].
  destruct (calculate_fee_with_minimum_floor 100 (2 # 100) 10) as [_ Hp].
  split; [|apply Hz; lra].
  destruct Hp as (Hmin & _ & [H | H]); [lra | exact H |].
  exfalso. rewrite H in Hmin. vm_compute in Hmin. apply Hmin. reflexivity.
Defined.

(** X3: With a rate and a minimum that are not negative, both simple fees are
    never negative and never fall when the amount grows. *)
Theorem simple_fees_monotone (a1 a2 rate0 min_fee : Q) :
  0 <= rate0 -> 0 <= min_fee -> a1 <= a2 ->
  0 <= calculate_simple_fee a1 rate0 /\
  calculate_simple_fee a1 rate0 <= calculate_simple_fee a2 rate0 /\
  0 <= calculate_fee_with_minimum a1 rate0 min_fee /\
  calculate_fee_with_minimum a1 rate0 min_fee
  <= calculate_fee_with_minimum a2 rate0 min_fee.
Proof.
  intros Hr Hm Ha.
  unfold calculate_simple_fee, calculate_fee_with_minimum.
  destruct (Qle_bool a1 0) eqn:H1; destruct (Qle_bool a2 0) eqn:H2;
    try (apply Qle_bool_iff in H1); try (apply Qle_bool_iff in H2);
    try (assert (H1' : 0 < a1)
           by (apply Qlt_bool_iff; unfold Qlt_bool; rewrite H1; reflexivity));
    try (assert (H2' : 0 < a2)
           by (apply Qlt_bool_iff; unfold Qlt_bool; rewrite H2; reflexivity));
    try (exfalso; lra).
  - repeat split; apply Qle_refl.
  - assert (Hp : 0 <= a2 * rate0)
      by (apply Qmult_le_0_compat; [apply Qlt_le_weak, H2' | exact Hr]).
    destruct (Qlt_bool (a2 * rate0) min_fee);
      repeat split; try apply Qle_refl; assumption.
  - assert (Hp1 : 0 <= a1 * rate0)
      by (apply Qmult_le_0_compat; [apply Qlt_le_weak, H1' | exact Hr]).
    assert (Hp : a1 * rate0 <= a2 * rate0)
      by (apply Qmult_le_compat_r; assumption).
    destruct (Qlt_bool (a1 * rate0) min_fee) eqn:E1;
      destruct (Qlt_bool (a2 * rate0) min_fee) eqn:E2;
      try (apply Qlt_bool_iff in E1); try (apply Qlt_bool_iff in E2);
      try (apply Qlt_bool_false_iff in E1);
      try (apply Qlt_bool_false_iff in E2);
      repeat split; lra.
Qed.

Lemma simple_fees_monotone_witness :
  calculate_simple_fee (-5) (2 # 100) <= calculate_simple_fee 100 (2 # 100) /\
  calculate_fee_with_minimum 100 (2 # 100) 10
  <= calculate_fee_with_minimum 1000 (2 # 100) 10.
Proof.
  split.
  - apply (simple_fees_monotone (-5) 100 (2 # 100) 10); lra.
  - apply (simple_fees_monotone 100 1000 (2 # 100) 10); lra.
Defined.

End SimpleFeeProperties.

Section TierProperties.
Open Scope Q_scope.

Variable P : PyDict.dict channel_config.
Variable T : PyDict.dict (list rate_tier).

Lemma calculate_tiered_rate_select
  (amount : Q) (channel_id : string) (tiers : list rate_tier) :
  PyDict.get T channel_id = Some tiers ->
  calculate_tiered_rate P T amount channel_id = select_rate amount tiers.
Proof.
  intro H. unfold calculate_tiered_rate, select_rate. rewrite H. reflexivity.
Qed.

Lemma last_tier_cons (t u : rate_tier) (rest : list rate_tier) :
  last_tier (t :: u :: rest) = last_tier (u :: rest).
Proof.
  destruct (exists_last (l := u :: rest)) as (pre & x & Hx); [discriminate|].
  rewrite Hx. change (t :: pre ++ [x])%list with ((t :: pre) ++ [x])%list.
  rewrite !last_tier_snoc. reflexivity.
Qed.

Lemma select_rate_skip (amount : Q) (t u : rate_tier) (rest : list rate_tier) :
  le_bound amount (max_amount t) = false ->
  select_rate amount (t :: u :: rest) = select_rate amount (u :: rest).
Proof.
  intro H. unfold select_rate. simpl scan_tiers. rewrite H.
  rewrite last_tier_cons. reflexivity.
Qed.

(** The selected rate is the rate of one of the tiers. *)
Lemma select_rate_in (amount : Q) (tiers : list rate_tier) (r : Q) :
  select_rate amount tiers = Ok r -> In r (map rate tiers).
Proof.
  induction tiers as [|t [|u rest] IH]; intro H.
  - discriminate H.
  - unfold select_rate in H. simpl in H.
    destruct (le_bound amount (max_amount t)); injection H as <-;
      left; reflexivity.
  - destruct (le_bound amount (max_amount t)) eqn:Hb.
    + unfold select_rate in H. simpl scan_tiers in H. rewrite Hb in H.
      injection H as <-. left. reflexivity.
    + rewrite select_rate_skip in H by exact Hb. right. apply IH, H.
Qed.

Lemma le_bound_mono (a1 a2 : Q) (b : bound) :
  a1 <= a2 -> le_bound a2 b = true -> le_bound a1 b = true.
Proof.
  intros Ha H. destruct b as [q|]; simpl in *; [|reflexivity].
  apply Qle_bool_iff in H. apply Qle_bool_iff. lra.
Qed.

Lemma select_rate_antitone (tiers : list rate_tier) (a1 a2 r1 r2 : Q) :
  rates_descending tiers -> a1 <= a2 ->
  select_rate a1 tiers = Ok r1 -> select_rate a2 tiers = Ok r2 ->
  r2 <= r1.
Proof.
  intros Hdesc Ha. revert r1 r2.
  induction Hdesc as [|t tiers Hs IH Ht]; intros r1 r2 H1 H2.
  - discriminate H1.
  - destruct (le_bound a1 (max_amount t)) eqn:Hb1.
    + assert (E1 : r1 = rate t).
      { unfold select_rate in H1. simpl scan_tiers in H1. rewrite Hb1 in H1.
        injection H1 as <-. reflexivity. }
      subst r1. apply select_rate_in in H2.
      destruct H2 as [<- | Hin]; [apply Qle_refl|].
      apply in_map_iff in Hin. destruct Hin as (u & <- & Hu).
      rewrite Forall_forall in Ht. apply Ht, Hu.
    + assert (Hb2 : le_bound a2 (max_amount t) = false).
      { destruct (le_bound a2 (max_amount t)) eqn:E; [|reflexivity].
        rewrite (le_bound_mono a1 a2 _ Ha E) in Hb1. discriminate Hb1. }
      destruct tiers as [|u rest].
      * unfold select_rate in H1, H2. simpl in H1, H2.
        rewrite Hb1 in H1. rewrite Hb2 in H2.
        injection H1 as <-. injection H2 as <-. apply Qle_refl.
      * rewrite select_rate_skip in H1 by exact Hb1.
        rewrite select_rate_skip in H2 by exact Hb2.
        apply IH; assumption.
Qed.

(** X4: [calculate_tiered_rate] raises ([IndexError]) exactly when the
    channel's list of tiers is present and empty; for a channel without
    tiers it returns the base rate of the channel, and 0.02 when the
    channel is not in the catalog either. *)
Theorem calculate_tiered_rate_edges (amount : Q) (channel_id : string) :
  ((exists e, calculate_tiered_rate P T amount channel_id = Raise e)
   <-> has_empty_tiers T channel_id) /\
  (PyDict.get T channel_id = None ->
   calculate_tiered_rate P T amount channel_id
   = Ok (match PyDict.get P channel_id with
         | Some c => cfg_base_rate c
         | None => 2 # 100
         end)).
Proof.
  unfold has_empty_tiers, calculate_tiered_rate. split.
  - destruct (PyDict.get T channel_id) as [[|t tiers]|].
    + simpl. split; [reflexivity | eauto].
    + split; [|discriminate].
      intros [e He].
      destruct (scan_tiers amount (t :: tiers)); [discriminate He|].
      destruct (last_tier_nonempty (t :: tiers)) as [x Hx]; [discriminate|].
      rewrite Hx in He. discriminate He.
    + split; [|discriminate].
      intros [e He]. destruct (PyDict.get P channel_id); discriminate He.
  - intros ->. destruct (PyDict.get P channel_id); reflexivity.
Qed.

(** X5: When the rates of a channel's tiers never rise along the list, a
    larger amount never gets a higher rate, whatever the bounds are. *)
Theorem calculate_tiered_rate_antitone
  (channel_id : string) (tiers : list rate_tier) (a1 a2 r1 r2 : Q) :
  PyDict.get T channel_id = Some tiers ->
  rates_descending tiers ->
  a1 <= a2 ->
  calculate_tiered_rate P T a1 channel_id = Ok r1 ->
  calculate_tiered_rate P T a2 channel_id = Ok r2 ->
  r2 <= r1.
Proof.
  intros Hget Hdesc Ha H1 H2.
  rewrite (calculate_tiered_rate_select a1 _ _ Hget) in H1.
  rewrite (calculate_tiered_rate_select a2 _ _ Hget) in H2.
  exact (select_rate_antitone tiers a1 a2 r1 r2 Hdesc Ha H1 H2).
Qed.

End TierProperties.

Section TierExamples.
Open Scope Q_scope.

Lemma sample_rates_descending :
  rates_descending
    [ {| max_amount := Fin 10000; rate := 15 # 1000 |};
      {| max_amount := Fin 50000; rate := 12 # 1000 |};
      {| max_amount := Fin 100000; rate := 10 # 1000 |};
      {| max_amount := PosInf; rate := 8 # 1000 |} ].
Proof.
  unfold rates_descending.
  repeat (constructor; [|repeat constructor; simpl; lra]). constructor.
Qed.

(** On ["bank_transfer"], 60000 is charged 0.010 and 20000 is charged
    0.012. *)
Lemma calculate_tiered_rate_antitone_witness :
  calculate_tiered_rate Sample.PAYMENT_CHANNELS Sample.TIERED_RATES
    20000 "bank_transfer" = Ok (12 # 1000) /\
  calculate_tiered_rate Sample.PAYMENT_CHANNELS Sample.TIERED_RATES
    60000 "bank_transfer" = Ok (10 # 1000) /\
  10 # 1000 <= 12 # 1000.
Proof.
  split; [reflexivity|]. split; [reflexivity|].
  apply (calculate_tiered_rate_antitone Sample.PAYMENT_CHANNELS
           Sample.TIERED_RATES "bank_transfer" _ 20000 60000
           (12 # 1000) (10 # 1000) eq_refl sample_rates_descending).
  - lra.
  - reflexivity.
  - reflexivity.
Defined.

(** A channel with an empty list of tiers makes tier selection raise. *)
Lemma calculate_tiered_rate_edges_witness :
  calculate_tiered_rate Sample.PAYMENT_CHANNELS [("swift", [])] 100 "swift"
  = Raise IndexError /\
  calculate_tiered_rate Sample.PAYMENT_CHANNELS Sample.TIERED_RATES
    100 "swift" = Ok (15 # 1000) /\
  calculate_tiered_rate Sample.PAYMENT_CHANNELS Sample.TIERED_RATES
    100 "nope" = Ok (2 # 100).
Proof.
  split; [|split].
  - destruct (proj2 (proj1 (calculate_tiered_rate_edges
                              Sample.PAYMENT_CHANNELS [("swift", [])]
                              100 "swift")) eq_refl) as [e He].
    rewrite He. destruct e. reflexivity.
  - apply (proj2 (calculate_tiered_rate_edges Sample.PAYMENT_CHANNELS
                    Sample.TIERED_RATES 100 "swift") eq_refl).
  - apply (proj2 (calculate_tiered_rate_edges Sample.PAYMENT_CHANNELS
                    Sample.TIERED_RATES 100 "nope") eq_refl).
Defined.

End TierExamples.

(* ------------------------------------------------------------------------- *)
(** ** Further properties of the channel fee *)
(* ------------------------------------------------------------------------- *)

Section ChannelFeeProperties.
Open Scope Q_scope.

Variable P : PyDict.dict channel_config.
Variable T : PyDict.dict (list rate_tier).

(** Every field of a successful fee dictionary. *)
Lemma calculate_channel_fee_ok_fields
  (amount : Q) (channel_id : string) (use_tiered_rate : bool) (r : fee_ok) :
  calculate_channel_fee P T amount channel_id use_tiered_rate = Ok (FeeOk r) ->
  exists c rate0,
    PyDict.get P channel_id = Some c /\
    get_default (cfg_is_active c) true = true /\
    (if use_tiered_rate && PyDict.mem T channel_id
     then calculate_tiered_rate P T amount channel_id
     else Ok (cfg_base_rate c)) = Ok rate0 /\
    fee_channel_id r = channel_id /\
    fee_channel_name r = cfg_name c /\
    fee_amount r = amount /\
    fee_rate r = rate0 /\
    fee_fixed_fee r = get_default (cfg_fixed_fee c) 0 /\
    let calculated := amount * rate0 + get_default (cfg_fixed_fee c) 0 in
    let min_fee := get_default (cfg_min_fee c) 0 in
    let max_fee := get_default (cfg_max_fee c) 0 in
    fee_calculated_fee r = py_round calculated 2 /\
    ((0 < min_fee /\ calculated < min_fee /\
      fee_final_fee r = py_round min_fee 2 /\
      fee_note r = "已应用最低收费"%string) \/
     (~ (0 < min_fee /\ calculated < min_fee) /\
      0 < max_fee /\ max_fee < calculated /\
      fee_final_fee r = py_round max_fee 2 /\
      fee_note r = "已应用最高收费"%string) \/
     (~ (0 < min_fee /\ calculated < min_fee) /\
      ~ (0 < max_fee /\ max_fee < calculated) /\
      fee_final_fee r = py_round calculated 2 /\
      fee_note r = ""%string)).
Proof.
  unfold calculate_channel_fee.
  destruct (PyDict.get P channel_id) as [c|]; [|discriminate].
  destruct (get_default (cfg_is_active c) true) eqn:Hact; simpl;
    [|discriminate].
  destruct (if use_tiered_rate && PyDict.mem T channel_id
            then calculate_tiered_rate P T amount channel_id
            else Ok (cfg_base_rate c)) as [rate0|e] eqn:Hrate0; simpl;
    [|discriminate].
  intro H. exists c, rate0.
  split; [reflexivity|]. split; [exact Hact|]. split; [exact Hrate0|].
  clear Hrate0. cbv zeta.
  destruct (Qlt_bool 0 (get_default (cfg_min_fee c) 0)) eqn:Hmin0;
    [destruct (Qlt_bool (amount * rate0 + get_default (cfg_fixed_fee c) 0)
                 (get_default (cfg_min_fee c) 0)) eqn:Hmin1|];
    simpl in H;
    try (destruct (Qlt_bool 0 (get_default (cfg_max_fee c) 0)) eqn:Hmax0;
         [destruct (Qlt_bool (get_default (cfg_max_fee c) 0)
                      (amount * rate0 + get_default (cfg_fixed_fee c) 0))
            eqn:Hmax1|];
         simpl in H);
    injection H as <-; simpl;
    repeat (split; [reflexivity|]);
    repeat match goal with
           | H : Qlt_bool _ _ = true |- _ => apply Qlt_bool_iff in H
           | H : Qlt_bool _ _ = false |- _ => apply Qlt_bool_false_iff in H
           end;
    first
      [ left; repeat split; (assumption || reflexivity)
      | right; left; repeat split;
        try assumption; try reflexivity; intros [? ?]; lra
      | right; right; repeat split;
        try assumption; try reflexivity; intros [? ?]; lra ].
Qed.

(** X6: The fee computation reports success exactly for a channel that is in
    the catalog and enabled, and it raises exactly when such a channel is
    computed with tiers and its list of tiers is empty. *)
Theorem calculate_channel_fee_outcomes
  (amount : Q) (channel_id : string) (use_tiered_rate : bool) :
  (forall res,
      calculate_channel_fee P T amount channel_id use_tiered_rate = Ok res ->
      (fee_success res = true <-> enabled P channel_id)) /\
  ((exists e,
       calculate_channel_fee P T amount channel_id use_tiered_rate = Raise e)
   <-> enabled P channel_id /\ use_tiered_rate = true /\
       has_empty_tiers T channel_id).
Proof.
  unfold enabled, calculate_channel_fee.
  destruct (PyDict.get P channel_id) as [c|].
  2:{ split.
      - intros res H. injection H as <-. simpl.
        split; [discriminate|]. intros (c & Hc & _). discriminate Hc.
      - split; [intros [e He]; discriminate He|].
        intros ((c & Hc & _) & _). discriminate Hc. }
  destruct (get_default (cfg_is_active c) true) eqn:Hact; simpl.
  2:{ split.
      - intros res H. injection H as <-. simpl.
        split; [discriminate|].
        intros (c' & Hc & Ha). injection Hc as <-. congruence.
      - split; [intros [e He]; discriminate He|].
        intros ((c' & Hc & Ha) & _). injection Hc as <-. congruence. }
  assert (Hen : exists c0, Some c = Some c0 /\
                           get_default (cfg_is_active c0) true = true)
    by (exists c; split; [reflexivity | exact Hact]).
  destruct use_tiered_rate; simpl.
  - unfold PyDict.mem.
    pose proof (calculate_tiered_rate_edges P T amount channel_id)
      as [Hraise Hnone].
    destruct (PyDict.get T channel_id) as [tiers|] eqn:HT.
    + destruct (calculate_tiered_rate P T amount channel_id) as [r0|e] eqn:Hr;
        simpl.
      * split.
        -- intros res H.
           destruct (_ && _) in H; [|destruct (_ && _) in H];
             injection H as <-; simpl; split; auto.
        -- split.
           ++ intros [e He].
              destruct (_ && _) in He; [|destruct (_ && _) in He];
                discriminate He.
           ++ intros (_ & _ & Hempty).
              apply Hraise in Hempty. destruct Hempty as [e He].
              discriminate He.
      * split; [intros res H; discriminate H|].
        split; [|eauto].
        intros _. split; [exact Hen|]. split; [reflexivity|].
        apply Hraise. eauto.
    + simpl. split.
      * intros res H.
        destruct (_ && _) in H; [|destruct (_ && _) in H];
          injection H as <-; simpl; split; auto.
      * split.
        -- intros [e He].
           destruct (_ && _) in He; [|destruct (_ && _) in He];
             discriminate He.
        -- intros (_ & _ & Hempty). unfold has_empty_tiers in Hempty.
           rewrite HT in Hempty. discriminate Hempty.
  - split.
    + intros res H.
      destruct (_ && _) in H; [|destruct (_ && _) in H];
        injection H as <-; simpl; split; auto.
    + split.
      * intros [e He].
        destruct (_ && _) in He; [|destruct (_ && _) in He];
          discriminate He.
      * intros (_ & Hf & _). discriminate Hf.
Qed.

(** X7: On a channel with a positive minimum fee and a maximum that is unset
    or not below the minimum, the final fee is never below the minimum
    fee rounded to cents. *)
Theorem final_fee_at_least_min
  (amount : Q) (channel_id : string) (use_tiered_rate : bool)
  (c : channel_config) (r : fee_ok) :
  PyDict.get P channel_id = Some c ->
  0 < get_default (cfg_min_fee c) 0 ->
  get_default (cfg_max_fee c) 0 <= 0 \/
  get_default (cfg_min_fee c) 0 <= get_default (cfg_max_fee c) 0 ->
  calculate_channel_fee P T amount channel_id use_tiered_rate = Ok (FeeOk r) ->
  py_round (get_default (cfg_min_fee c) 0) 2 <= fee_final_fee r.
Proof.
  intros Hget Hmin Hmax Hfee.
  destruct (calculate_channel_fee_ok_fields _ _ _ _ Hfee)
    as (c' & rate0 & Hget' & _ & _ & _ & _ & _ & _ & _ & Hrest).
  rewrite Hget in Hget'. injection Hget' as <-.
  cbv zeta in Hrest.
  destruct Hrest as
    (_ & [(_ & _ & -> & _) | [(_ & Hpos & _ & -> & _) | (Hn & _ & -> & _)]]).
  - apply Qle_refl.
  - apply py_round_mono. lra.
  - apply py_round_mono.
    destruct (Qlt_le_dec
                (amount * rate0 + get_default (cfg_fixed_fee c) 0)
                (get_default (cfg_min_fee c) 0)) as [Hlt|Hle];
      [exfalso; apply Hn; split; assumption | exact Hle].
Qed.

(** X8: The note of a fee dictionary tells which clamp was applied: with an
    empty note the final fee is the calculated fee, and each of the two
    other notes goes with the rounded minimum or maximum. *)
Theorem fee_note_tells_clamp
  (amount : Q) (channel_id : string) (use_tiered_rate : bool)
  (c : channel_config) (r : fee_ok) :
  PyDict.get P channel_id = Some c ->
  calculate_channel_fee P T amount channel_id use_tiered_rate = Ok (FeeOk r) ->
  (fee_note r = ""%string -> fee_final_fee r = fee_calculated_fee r) /\
  (fee_note r = "已应用最低收费"%string ->
   fee_final_fee r = py_round (get_default (cfg_min_fee c) 0) 2) /\
  (fee_note r = "已应用最高收费"%string ->
   fee_final_fee r = py_round (get_default (cfg_max_fee c) 0) 2) /\
  (fee_final_fee r <> fee_calculated_fee r -> fee_note r <> ""%string).
Proof.
  intros Hget Hfee.
  destruct (calculate_channel_fee_ok_fields _ _ _ _ Hfee)
    as (c' & rate0 & Hget' & _ & _ & _ & _ & _ & _ & _ & Hrest).
  rewrite Hget in Hget'. injection Hget' as <-.
  cbv zeta in Hrest.
  destruct Hrest as
    (Hcalc & [(_ & _ & Hf & Hn) | [(_ & _ & _ & Hf & Hn) | (_ & _ & Hf & Hn)]]);
    rewrite Hn, Hf, ?Hcalc;
    repeat split; intros; try reflexivity; try discriminate; congruence.
Qed.

(** X9: Without tiers in use the rate is the base rate of the channel and
    nothing is raised; and asking for tiers on a channel that has none
    gives the same result as not asking. *)
Theorem base_rate_without_tiers (amount : Q) (channel_id : string) :
  (exists res, calculate_channel_fee P T amount channel_id false = Ok res) /\
  (forall r,
      calculate_channel_fee P T amount channel_id false = Ok (FeeOk r) ->
      exists c, PyDict.get P channel_id = Some c /\
                fee_rate r = cfg_base_rate c) /\
  (PyDict.mem T channel_id = false ->
   calculate_channel_fee P T amount channel_id true
   = calculate_channel_fee P T amount channel_id false).
Proof.
  split; [|split].
  - unfold calculate_channel_fee.
    destruct (PyDict.get P channel_id) as [c|]; [|eauto].
    destruct (negb _); [eauto|]. simpl.
    destruct (_ && _); [|destruct (_ && _)]; eauto.
  - intros r H.
    destruct (calculate_channel_fee_ok_fields _ _ _ _ H)
      as (c & rate0 & Hget & _ & Hrate & _ & _ & _ & Hr & _).
    simpl in Hrate. injection Hrate as <-.
    exists c. split; assumption.
  - intro H. unfold calculate_channel_fee. rewrite H. reflexivity.
Qed.

(** X10: At the base rate, with a rate that is not negative and clamps that do
    not cross (one of them unset, or the minimum not above the maximum),
    the final fee never falls when the amount grows. *)
Theorem final_fee_monotone_at_base_rate
  (a1 a2 : Q) (channel_id : string) (c : channel_config) (r1 r2 : fee_ok) :
  PyDict.get P channel_id = Some c ->
  0 <= cfg_base_rate c ->
  get_default (cfg_min_fee c) 0 <= 0 \/
  get_default (cfg_max_fee c) 0 <= 0 \/
  get_default (cfg_min_fee c) 0 <= get_default (cfg_max_fee c) 0 ->
  a1 <= a2 ->
  calculate_channel_fee P T a1 channel_id false = Ok (FeeOk r1) ->
  calculate_channel_fee P T a2 channel_id false = Ok (FeeOk r2) ->
  fee_final_fee r1 <= fee_final_fee r2.
Proof.
  intros Hget Hrate Hclamp Ha H1 H2.
  destruct (calculate_channel_fee_ok_fields _ _ _ _ H1)
    as (c1 & x1 & Hget1 & _ & Hx1 & _ & _ & _ & _ & _ & Hrest1).
  destruct (calculate_channel_fee_ok_fields _ _ _ _ H2)
    as (c2 & x2 & Hget2 & _ & Hx2 & _ & _ & _ & _ & _ & Hrest2).
  rewrite Hget in Hget1, Hget2.
  injection Hget1 as <-. injection Hget2 as <-.
  simpl in Hx1, Hx2. injection Hx1 as <-. injection Hx2 as <-.
  cbv zeta in Hrest1, Hrest2.
  assert (Hm : a1 * cfg_base_rate c <= a2 * cfg_base_rate c)
    by (apply Qmult_le_compat_r; assumption).
  destruct Hrest1 as
    (_ & [(Ha1 & Hb1 & -> & _) | [(Hn1 & Ha1 & Hb1 & -> & _)
                                 | (Hn1 & Hm1 & -> & _)]]);
  destruct Hrest2 as
    (_ & [(Ha2 & Hb2 & -> & _) | [(Hn2 & Ha2 & Hb2 & -> & _)
                                 | (Hn2 & Hm2 & -> & _)]]);
    apply py_round_mono;
    repeat match goal with
           | H : ~ (?a < ?b /\ ?x < ?y) |- _ =>
               assert (b <= a \/ y <= x)
                 by (destruct (Qlt_le_dec a b); destruct (Qlt_le_dec x y);
                     auto; exfalso; apply H; split; assumption);
               clear H
           end;
    lra.
Qed.

End ChannelFeeProperties.

Section ChannelFeeExamples.
Open Scope Q_scope.

Lemma swift_enabled : enabled Sample.PAYMENT_CHANNELS "swift".
Proof. eexists. split; reflexivity. Qed.

(** On the sample catalog ["swift"] succeeds and ["legacy_wire"] does not;
    with an empty tier list for ["swift"] the computation raises. *)
Lemma calculate_channel_fee_outcomes_witness :
  (exists res,
      calculate_channel_fee Sample.PAYMENT_CHANNELS Sample.TIERED_RATES
        100 "swift" true = Ok res /\ fee_success res = true) /\
  (exists res,
      calculate_channel_fee Sample.PAYMENT_CHANNELS Sample.TIERED_RATES
        100 "legacy_wire" true = Ok res /\ fee_success res <> true) /\
  (exists e,
      calculate_channel_fee Sample.PAYMENT_CHANNELS [("swift", [])]
        100 "swift" true = Raise e).
Proof.
  split; [|split].
  - eexists. split; [vm_compute; reflexivity|].
    apply (proj1 (calculate_channel_fee_outcomes Sample.PAYMENT_CHANNELS
                    Sample.TIERED_RATES 100 "swift" true) _ eq_refl).
    exact swift_enabled.
  - eexists. split; [vm_compute; reflexivity|].
    intro H.
    apply (proj1 (calculate_channel_fee_outcomes Sample.PAYMENT_CHANNELS
                    Sample.TIERED_RATES 100 "legacy_wire" true) _ eq_refl)
      in H.
    destruct H as (c & Hc & Ha). vm_compute in Hc. injection Hc as <-.
    discriminate Ha.
  - apply (proj2 (calculate_channel_fee_outcomes Sample.PAYMENT_CHANNELS
                    [("swift", [])] 100 "swift" true)).
    split; [exact swift_enabled|]. split; reflexivity.
Defined.

(** On ["swift"] (fixed fee 30, minimum 80, maximum 800) an amount of 100
    is charged the minimum, and the note says so. *)
Lemma final_fee_at_least_min_witness :
  exists r,
    calculate_channel_fee Sample.PAYMENT_CHANNELS Sample.TIERED_RATES
      100 "swift" true = Ok (FeeOk r) /\
    80 <= fee_final_fee r.
Proof.
  eexists. split; [vm_compute; reflexivity|].
  refine (Qle_trans _ _ _ _
            (final_fee_at_least_min Sample.PAYMENT_CHANNELS
               Sample.TIERED_RATES 100 "swift" true _ _ eq_refl _ _ eq_refl)).
  - vm_compute. discriminate.
  - simpl. lra.
  - right. simpl. lra.
Defined.

Lemma fee_note_tells_clamp_witness :
  exists r,
    calculate_channel_fee Sample.PAYMENT_CHANNELS Sample.TIERED_RATES
      100 "swift" true = Ok (FeeOk r) /\
    fee_note r = "已应用最低收费"%string /\
    fee_final_fee r = 80.
Proof.
  eexists. split; [vm_compute; reflexivity|]. split; [reflexivity|].
  apply (fee_note_tells_clamp Sample.PAYMENT_CHANNELS Sample.TIERED_RATES
           100 "swift" true _ _ eq_refl eq_refl).
  reflexivity.
Defined.

(** On ["bank_transfer"] an amount of 60000 is charged the base rate 0.015
    when tiers are not used (the tier rate would be 0.010); ["swift"] has
    no tiers, so asking for them changes nothing. *)
Lemma base_rate_without_tiers_witness :
  (exists r,
      calculate_channel_fee Sample.PAYMENT_CHANNELS Sample.TIERED_RATES
        60000 "bank_transfer" false = Ok (FeeOk r) /\
      fee_rate r = 15 # 1000) /\
  calculate_channel_fee Sample.PAYMENT_CHANNELS Sample.TIERED_RATES
    100 "swift" true
  = calculate_channel_fee Sample.PAYMENT_CHANNELS Sample.TIERED_RATES
      100 "swift" false.
Proof.
  destruct (base_rate_without_tiers Sample.PAYMENT_CHANNELS
              Sample.TIERED_RATES 60000 "bank_transfer")
    as (_ & Hrate & _).
  destruct (base_rate_without_tiers Sample.PAYMENT_CHANNELS
              Sample.TIERED_RATES 100 "swift") as (_ & _ & Hsame).
  split; [|apply Hsame; reflexivity].
  eexists. split; [vm_compute; reflexivity|].
  destruct (Hrate _ eq_refl) as (c & Hc & Hr).
  apply (eq_trans Hr). vm_compute in Hc. injection Hc as <-. reflexivity.
Defined.

Lemma final_fee_monotone_at_base_rate_witness :
  exists r1 r2,
    calculate_channel_fee Sample.PAYMENT_CHANNELS Sample.TIERED_RATES
      100 "swift" false = Ok (FeeOk r1) /\
    calculate_channel_fee Sample.PAYMENT_CHANNELS Sample.TIERED_RATES
      10000 "swift" false = Ok (FeeOk r2) /\
    fee_final_fee r1 <= fee_final_fee r2.
Proof.
  do 2 eexists.
  split; [vm_compute; reflexivity|]. split; [vm_compute; reflexivity|].
  apply (final_fee_monotone_at_base_rate Sample.PAYMENT_CHANNELS
           Sample.TIERED_RATES 100 10000 "swift" _ _ _ eq_refl).
  - simpl. lra.
  - right. right. simpl. lra.
  - lra.
  - vm_compute. reflexivity.
  - vm_compute. reflexivity.
Defined.

End ChannelFeeExamples.

(* ------------------------------------------------------------------------- *)
(** ** More on rounding *)
(* ------------------------------------------------------------------------- *)

Section RoundingFacts.
Open Scope Q_scope.


Lemma round_half_even_Z (k : Z) : round_half_even (inject_Z k) = k.
Proof.
  unfold round_half_even. rewrite Qfloor_Z.
  assert (H : (inject_Z k - inject_Z k ?= 1 # 2) = Lt).
  { apply (proj1 (Qlt_alt _ _)). lra. }
  rewrite H. reflexivity.
Qed.

(** The unit of the last digit kept by [round(x, n)]. *)
Lemma py_round_unfold (x : Q) (n : nat) :
  py_round x n
  == Qmake (round_half_even
              (x * inject_Z (Zpos (Z.to_pos (10 ^ Z.of_nat n)))))
       (Z.to_pos (10 ^ Z.of_nat n)).
Proof. unfold py_round. apply Qred_correct. Qed.

(** Rounding twice to the same digits is rounding once. *)
Lemma py_round_idempotent (x : Q) (n : nat) :
  py_round (py_round x n) n = py_round x n.
Proof.
  unfold py_round at 1 3.
  set (s := Z.to_pos (10 ^ Z.of_nat n)).
  set (k := round_half_even (x * inject_Z (Z.pos s))).
  assert (E : round_half_even (py_round x n * inject_Z (Z.pos s)) = k).
  { rewrite <- (round_half_even_Z k). apply round_half_even_comp.
    rewrite py_round_unfold. fold s. fold k.
    unfold Qeq. simpl. rewrite Pos.mul_1_r. ring. }
  rewrite E. reflexivity.
Qed.

Lemma py_round_zero (n : nat) : py_round 0 n == 0.
Proof.
  rewrite py_round_unfold.
  set (s := Z.to_pos (10 ^ Z.of_nat n)).
  assert (E : round_half_even (0 * inject_Z (Z.pos s)) = 0%Z).
  { transitivity (round_half_even (inject_Z 0));
      [|apply round_half_even_Z].
    apply round_half_even_comp. rewrite Qmult_0_l. reflexivity. }
  rewrite E. reflexivity.
Qed.

Lemma py_round_nonneg (x : Q) (n : nat) : 0 <= x -> 0 <= py_round x n.
Proof.
  intro H. rewrite <- (py_round_zero n). apply py_round_mono, H.
Qed.


End RoundingFacts.

(* ------------------------------------------------------------------------- *)
(** ** Further properties of the exchange cost and of the total cost *)
(* ------------------------------------------------------------------------- *)

Section ExchangeProperties.
Open Scope Q_scope.

Variable E : PyDict.dict Q.

(** X11: With an amount, a reference rate and a spread that are not negative,
    the reported exchange loss is not negative. *)
Theorem exchange_loss_nonnegative
  (amount : Q) (from_currency to_currency : string)
  (spread_rate market_rate : Q) :
  PyDict.get E from_currency = Some market_rate ->
  0 <= market_rate -> 0 <= amount -> 0 <= spread_rate ->
  exists r,
    calculate_exchange_cost E amount from_currency to_currency spread_rate
      = ExchangeOk r /\
    0 <= ex_exchange_loss r.
Proof.
  intros Hget Hrate Hamount Hspread.
  unfold calculate_exchange_cost. rewrite Hget.
  eexists. split; [reflexivity|]. simpl.
  apply py_round_nonneg.
  assert (H : amount * market_rate - amount * (market_rate * (1 - spread_rate))
              == amount * market_rate * spread_rate) by ring.
  rewrite H.
  apply Qmult_le_0_compat; [apply Qmult_le_0_compat|]; assumption.
Qed.


End ExchangeProperties.

Section ExchangeProperties_examples.
Open Scope Q_scope.

Lemma exchange_loss_nonnegative_witness :
  exists r,
    calculate_exchange_cost Sample.EXCHANGE_RATES 1000 "USD" "CNY" (5 # 1000)
      = ExchangeOk r /\
    ex_exchange_loss r = 145 # 4 /\
    0 <= ex_exchange_loss r.
Proof.
  destruct (exchange_loss_nonnegative Sample.EXCHANGE_RATES 1000 "USD" "CNY"
              (5 # 1000) (725 # 100) eq_refl) as (r & Hr & Hpos);
    [lra | lra | lra |].
  exists r. split; [exact Hr|]. split; [|exact Hpos].
  vm_compute in Hr. injection Hr as <-. reflexivity.
Defined.


End ExchangeProperties_examples.

Section TotalCostProperties.
Open Scope Q_scope.

Variable P : PyDict.dict channel_config.
Variable T : PyDict.dict (list rate_tier).
Variable E : PyDict.dict Q.

Lemma calculate_total_cost_raises_iff
  (amount : Q) (currency channel_id : string) (spread_rate : Q) :
  (exists e, calculate_total_cost P T E amount currency channel_id spread_rate
             = Raise e)
  <-> enabled P channel_id /\ has_empty_tiers T channel_id.
Proof.
  pose proof (calculate_channel_fee_outcomes P T amount channel_id true)
    as [_ Hraise].
  unfold calculate_total_cost.
  destruct (calculate_channel_fee P T amount channel_id true) as [res|e];
    simpl.
  - split.
    + intros [e He]. destruct res as [m|f]; [discriminate He|].
      destruct (negb _); [|discriminate He].
      destruct (calculate_exchange_cost _ _ _ _ _); discriminate He.
    + intros [Hen Hempty].
      destruct (proj2 Hraise (conj Hen (conj eq_refl Hempty))) as [e He].
      discriminate He.
  - split; [|eauto].
    intros _. destruct (proj1 Hraise (ex_intro _ e eq_refl)) as (Hen & _ & H).
    split; assumption.
Qed.

(** X13: What [calculate_total_cost] returns tells what failed: the complete
    dictionary exactly for an enabled channel and a currency that is CNY
    or has a reference rate; the fee error exactly for a channel that is
    unknown or disabled, whatever the currency; the exchange error exactly
    for an enabled channel and a foreign currency without a rate.  Whether
    the channel supports the currency plays no part. *)
Theorem calculate_total_cost_outcomes
  (amount : Q) (currency channel_id : string) (spread_rate : Q)
  (res : total_result) :
  calculate_total_cost P T E amount currency channel_id spread_rate = Ok res ->
  (total_success res = true <->
   enabled P channel_id /\
   (currency = "CNY"%string \/ PyDict.mem E currency = true)) /\
  ((exists e, res = TotalFeeError e) <-> ~ enabled P channel_id) /\
  ((exists a cu ch f fr e, res = TotalExchangeError a cu ch f fr e) <->
   enabled P channel_id /\ currency <> "CNY"%string /\
   PyDict.mem E currency = false).
Proof.
  pose proof (calculate_channel_fee_outcomes P T amount channel_id true)
    as [Hok _].
  unfold calculate_total_cost.
  destruct (calculate_channel_fee P T amount channel_id true) as [fres|e];
    simpl; [|discriminate].
  specialize (Hok fres eq_refl).
  destruct fres as [m|f]; simpl in Hok.
  - intro H. injection H as <-. simpl.
    assert (Hn : ~ enabled P channel_id)
      by (intro Hen; apply Hok in Hen; discriminate Hen).
    split; [|split].
    + split; [discriminate | intros [Hen _]; contradiction].
    + split; [intros _; exact Hn | eauto].
    + split; [intros (a & cu & ch & ff & fr & e & He); discriminate He
             | intros [Hen _]; contradiction].
  - assert (Hen : enabled P channel_id) by (apply Hok; reflexivity).
    destruct (String.eqb currency "CNY") eqn:Hc; simpl.
    + apply String.eqb_eq in Hc. intro H. injection H as <-. simpl.
      split; [|split].
      * split; auto.
      * split; [intros [e He]; discriminate He | intro Hn; contradiction].
      * split; [intros (a & cu & ch & ff & fr & e & He); discriminate He
               | intros (_ & Hne & _); contradiction].
    + apply String.eqb_neq in Hc.
      unfold calculate_exchange_cost, PyDict.mem.
      destruct (PyDict.get E currency) as [market_rate|];
        intro H; injection H as <-; simpl.
      * split; [|split].
        -- split; auto.
        -- split; [intros [e He]; discriminate He | intro Hn; contradiction].
        -- split; [intros (a & cu & ch & ff & fr & e & He); discriminate He
                  | intros (_ & _ & Hf); discriminate Hf].
      * split; [|split].
        -- split; [discriminate|].
           intros [_ [Hcny | Hf]]; [contradiction | discriminate Hf].
        -- split; [intros [e He]; discriminate He | intro Hn; contradiction].
        -- split; [auto | intros _; repeat eexists].
Qed.

(** X14: In the reference currency the total cost is the channel fee: no
    exchange loss, the amount unchanged, a cost rate of 0 for an amount
    that is not positive; and neither the rate table nor the spread
    matters. *)
Theorem total_cost_in_reference_currency
  (amount : Q) (channel_id : string) (spread_rate : Q) :
  (forall E' spread_rate',
      calculate_total_cost P T E amount "CNY" channel_id spread_rate
      = calculate_total_cost P T E' amount "CNY" channel_id spread_rate') /\
  (forall r,
      calculate_total_cost P T E amount "CNY" channel_id spread_rate
      = Ok (TotalOk r) ->
      tc_exchange_loss r = 0 /\
      tc_amount_cny r = amount /\
      tc_total_cost r = tc_fee r /\
      (amount <= 0 -> tc_total_cost_rate r = 0)).
Proof.
  split; [reflexivity|].
  intros r. unfold calculate_total_cost.
  destruct (calculate_channel_fee P T amount channel_id true) as [fres|e]
    eqn:Hfee; simpl; [|discriminate].
  destruct fres as [m|f]; [discriminate|].
  intro H. injection H as <-. simpl.
  destruct (calculate_channel_fee_ok_inv P T _ _ _ _ Hfee)
    as (c & _ & _ & Hfinal).
  cbv zeta in Hfinal.
  split; [reflexivity|]. split; [reflexivity|]. split.
  - rewrite Hfinal. apply py_round_idempotent.
  - intro Hle. apply Qlt_bool_false_iff in Hle. rewrite Hle. reflexivity.
Qed.

End TotalCostProperties.

Section TotalCostExamples.
Open Scope Q_scope.

(** On the sample catalogs: ["swift"] with USD succeeds, with JPY (no
    rate) it gives the exchange error, and the disabled ["legacy_wire"]
    gives the fee error even for JPY. *)
Lemma calculate_total_cost_outcomes_witness :
  (exists r,
      calculate_total_cost Sample.PAYMENT_CHANNELS Sample.TIERED_RATES
        Sample.EXCHANGE_RATES 100 "USD" "swift" (5 # 1000) = Ok (TotalOk r)) /\
  (exists a cu ch f fr e,
      calculate_total_cost Sample.PAYMENT_CHANNELS Sample.TIERED_RATES
        Sample.EXCHANGE_RATES 100 "JPY" "swift" (5 # 1000)
      = Ok (TotalExchangeError a cu ch f fr e)) /\
  (exists e,
      calculate_total_cost Sample.PAYMENT_CHANNELS Sample.TIERED_RATES
        Sample.EXCHANGE_RATES 100 "JPY" "legacy_wire" (5 # 1000)
      = Ok (TotalFeeError e)).
Proof.
  split; [|split].
  - eexists. vm_compute. reflexivity.
  - destruct (calculate_total_cost Sample.PAYMENT_CHANNELS Sample.TIERED_RATES
                Sample.EXCHANGE_RATES 100 "JPY" "swift" (5 # 1000))
      as [res|x] eqn:Hres; [|vm_compute in Hres; discriminate Hres].
    assert (Hne : "JPY"%string <> "CNY"%string) by discriminate.
    pose proof (calculate_total_cost_outcomes _ _ _ _ _ _ _ _ Hres)
      as (_ & _ & H3).
    destruct (proj2 H3 (conj swift_enabled (conj Hne eq_refl)))
      as (a & cu & ch & f & fr & e & ->).
    repeat eexists.
  - destruct (calculate_total_cost Sample.PAYMENT_CHANNELS Sample.TIERED_RATES
                Sample.EXCHANGE_RATES 100 "JPY" "legacy_wire" (5 # 1000))
      as [res|x] eqn:Hres; [|vm_compute in Hres; discriminate Hres].
    destruct (proj2 (proj1 (proj2 (calculate_total_cost_outcomes _ _ _ _ _ _ _
                                     _ Hres)))) as [e ->]; [|eauto].
    intros (c & Hc & Ha). vm_compute in Hc. injection Hc as <-.
    discriminate Ha.
Defined.

(** 1000 CNY on ["alipay"]: fee and total cost 20, no exchange loss. *)
Lemma total_cost_in_reference_currency_witness :
  exists r,
    calculate_total_cost Sample.PAYMENT_CHANNELS Sample.TIERED_RATES
      Sample.EXCHANGE_RATES 1000 "CNY" "alipay" (5 # 1000) = Ok (TotalOk r) /\
    tc_fee r = 20 /\ tc_total_cost r = tc_fee r /\ tc_exchange_loss r = 0.
Proof.
  assert (H : exists r,
             calculate_total_cost Sample.PAYMENT_CHANNELS Sample.TIERED_RATES
               Sample.EXCHANGE_RATES 1000 "CNY" "alipay" (5 # 1000)
             = Ok (TotalOk r) /\ tc_fee r = 20)
    by (eexists; split; [vm_compute; reflexivity | reflexivity]).
  destruct H as (r & Hr & Hfee).
  exists r. split; [exact Hr|]. split; [exact Hfee|].
  destruct (proj2 (total_cost_in_reference_currency Sample.PAYMENT_CHANNELS
                     Sample.TIERED_RATES Sample.EXCHANGE_RATES
                     1000 "alipay" (5 # 1000)) r Hr)
    as (Hloss & _ & Hcost & _).
  split; [exact Hcost | exact Hloss].
Defined.

End TotalCostExamples.

(* ------------------------------------------------------------------------- *)
(** ** Further properties of the comparison *)
(* ------------------------------------------------------------------------- *)

Section CompareProperties.
Open Scope Q_scope.

Variable P : PyDict.dict channel_config.
Variable T : PyDict.dict (list rate_tier).
Variable E : PyDict.dict Q.

(** The output is sorted by total cost and, rank apart, a permutation of
    the collected entries. *)
Lemma compare_channel_fees_sorted_perm
  (amount : Q) (currency : string) (channel_ids : option (list string))
  (out : list comparison_entry) :
  compare_channel_fees P T E amount currency channel_ids = Ok out ->
  StronglySorted (fun a b => ce_total_cost a <= ce_total_cost b) out /\
  exists results,
    collect_results P T E amount currency (iterated_ids P channel_ids)
      = Ok results /\
    Permutation (map clear_rank out) results.
Proof.
  intro Hout.
  destruct (compare_channel_fees_inv P T E _ _ _ _ Hout)
    as (results & Hres & ->).
  destruct (collect_results_spec P T E _ _ _ _ Hres) as (_ & Hrank & _).
  pose proof (clear_rank_output results Hrank) as Hclear.
  split.
  - apply sorted_by_cost_clear. rewrite Hclear. apply sorted_sorted.
  - exists results. split; [exact Hres|].
    rewrite Hclear. apply sorted_perm.
Qed.

(** X15: The entry [find_cheapest_channel] returns has rank 1 and no entry of
    the comparison over the whole catalog costs less. *)
Theorem find_cheapest_channel_minimal
  (amount : Q) (currency : string) (first : comparison_entry) :
  find_cheapest_channel P T E amount currency = Ok (Some first) ->
  ce_rank first = Some 1%nat /\
  exists out,
    compare_channel_fees P T E amount currency None = Ok out /\
    In first out /\
    forall e, In e out -> ce_total_cost first <= ce_total_cost e.
Proof.
  unfold find_cheapest_channel.
  destruct (compare_channel_fees P T E amount currency None)
    as [[|e0 rest]|x] eqn:Hout; simpl; intro H; try discriminate H.
  injection H as ->.
  destruct (compare_channel_fees_sorted_perm _ _ _ _ Hout) as [Hsorted _].
  destruct (compare_channel_fees_inv P T E _ _ _ _ Hout) as (results & _ & Heq).
  split.
  - apply (assign_ranks_from_nth 0 0 (sorted ce_total_cost results)).
    unfold assign_ranks in Heq. rewrite <- Heq. reflexivity.
  - exists (first :: rest). split; [reflexivity|].
    split; [left; reflexivity|].
    intros e [<- | He]; [apply Qle_refl|].
    inversion Hsorted as [|? ? _ Hall]; subst.
    rewrite Forall_forall in Hall. apply Hall, He.
Qed.

Lemma collect_results_raises_iff
  (amount : Q) (currency : string) (channel_ids : list string) :
  (exists e, collect_results P T E amount currency channel_ids = Raise e)
  <-> exists id, In id channel_ids /\ supports P currency id = true /\
                 enabled P id /\ has_empty_tiers T id.
Proof.
  induction channel_ids as [|id ids IH]; simpl.
  - split; [intros [e He]; discriminate He | intros (id & [] & _)].
  - unfold supports at 1.
    destruct (PyDict.get P id) as [c|] eqn:Hget.
    2:{ rewrite IH. split.
        - intros (i & Hi & Hrest). exists i. split; [right|]; assumption.
        - intros (i & [<- | Hi] & Hs & Hrest); [|exists i; auto].
          unfold supports in Hs. rewrite Hget in Hs. discriminate Hs. }
    destruct (str_in currency (get_default (cfg_supported_currencies c) []))
      eqn:Hsup; simpl.
    2:{ rewrite IH. split.
        - intros (i & Hi & Hrest). exists i. split; [right|]; assumption.
        - intros (i & [<- | Hi] & Hs & Hrest); [|exists i; auto].
          unfold supports in Hs. rewrite Hget, Hsup in Hs. discriminate Hs. }
    pose proof (calculate_total_cost_raises_iff P T E amount currency id
                  default_spread_rate) as Hcost.
    destruct (calculate_total_cost P T E amount currency id
                default_spread_rate) as [r|x]; simpl.
    + destruct (collect_results P T E amount currency ids) as [rest|x]; simpl.
      * split.
        -- intros [e He]. destruct r; discriminate He.
        -- intros (i & [<- | Hi] & Hs & Hen & Hempty).
           ++ destruct (proj2 Hcost (conj Hen Hempty)) as [e He].
              discriminate He.
           ++ destruct (proj2 IH) as [e He]; [exists i; auto|].
              discriminate He.
      * split; [|eauto]. intros _.
        destruct (proj1 IH) as (i & Hi & Hrest); [eauto|].
        exists i. split; [right|]; assumption.
    + split; [|eauto]. intros _.
      destruct (proj1 Hcost) as [Hen Hempty]; [eauto|].
      exists id. split; [left; reflexivity|].
      split; [|split; assumption].
      unfold supports. rewrite Hget. exact Hsup.
Qed.

(** X16: A failed channel is left out, but an empty list of tiers is not
    forgiven: the comparison raises exactly when one of the iterated
    channels supports the currency, is enabled and has an empty list of
    tiers. *)
Theorem compare_channel_fees_raises_iff
  (amount : Q) (currency : string) (channel_ids : option (list string)) :
  (exists e, compare_channel_fees P T E amount currency channel_ids = Raise e)
  <-> exists id, In id (iterated_ids P channel_ids) /\
                 supports P currency id = true /\
                 enabled P id /\ has_empty_tiers T id.
Proof.
  etransitivity;
    [|apply (collect_results_raises_iff amount currency
               (iterated_ids P channel_ids))].
  unfold compare_channel_fees. fold (iterated_ids P channel_ids).
  destruct (collect_results P T E amount currency (iterated_ids P channel_ids))
    as [results|x]; simpl.
  - split; intros [e He]; discriminate He.
  - split; eauto.
Qed.

Lemma collect_results_permutation
  (amount : Q) (currency : string) (ids ids' : list string) :
  Permutation ids ids' ->
  forall results,
    collect_results P T E amount currency ids = Ok results ->
    exists results',
      collect_results P T E amount currency ids' = Ok results' /\
      Permutation results results'.
Proof.
  induction 1 as [|x l l' Hperm IH|x y l|l l' l'' H1 IH1 H2 IH2];
    intros results Hres.
  - exists results. split; [exact Hres | apply Permutation_refl].
  - simpl in Hres |- *.
    destruct (PyDict.get P x) as [c|]; [|apply IH, Hres].
    destruct (negb _); [apply IH, Hres|].
    destruct (calculate_total_cost P T E amount currency x
                default_spread_rate) as [r|e]; simpl in Hres |- *;
      [|discriminate Hres].
    destruct (collect_results P T E amount currency l) as [rest|e];
      simpl in Hres; [|discriminate Hres].
    destruct (IH rest eq_refl) as (rest' & -> & Hp). simpl.
    destruct r; injection Hres as <-; eexists; split; try reflexivity;
      try exact Hp.
    apply perm_skip, Hp.
  - simpl in Hres |- *.
    destruct (PyDict.get P x) as [cx|];
      [destruct (negb (str_in currency
                         (get_default (cfg_supported_currencies cx) [])));
       [|destruct (calculate_total_cost P T E amount currency x
                     default_spread_rate) as [rx|ex]]|];
    (destruct (PyDict.get P y) as [cy|];
      [destruct (negb (str_in currency
                         (get_default (cfg_supported_currencies cy) [])));
       [|destruct (calculate_total_cost P T E amount currency y
                     default_spread_rate) as [ry|ey]]|]);
    simpl in Hres |- *; try discriminate Hres;
    destruct (collect_results P T E amount currency l) as [rest|e];
    simpl in Hres |- *; try discriminate Hres;
    try destruct rx; try destruct ry; simpl in Hres |- *;
    injection Hres as <-; eexists; split; try reflexivity;
    try apply Permutation_refl.
    apply perm_swap.
  - destruct (IH1 results Hres) as (r1 & Hr1 & Hp1).
    destruct (IH2 r1 Hr1) as (r2 & Hr2 & Hp2).
    exists r2. split; [exact Hr2|].
    apply Permutation_trans with r1; assumption.
Qed.

(** X17: The comparison does not depend on the order in which the channels are
    given: for a permuted list of channels it returns, rank apart, the same
    entries, and its cheapest entry costs the same. *)
Theorem compare_channel_fees_order_independent
  (amount : Q) (currency : string) (ids ids' : list string)
  (out : list comparison_entry) :
  Permutation ids ids' ->
  compare_channel_fees P T E amount currency (Some ids) = Ok out ->
  exists out',
    compare_channel_fees P T E amount currency (Some ids') = Ok out' /\
    Permutation (map clear_rank out) (map clear_rank out') /\
    forall e e',
      nth_error out 0 = Some e -> nth_error out' 0 = Some e' ->
      ce_total_cost e == ce_total_cost e'.
Proof.
  intros Hperm Hout.
  destruct (compare_channel_fees_sorted_perm _ _ _ _ Hout)
    as (Hsorted & results & Hres & Hp).
  simpl in Hres.
  destruct (collect_results_permutation amount currency ids ids' Hperm
              results Hres) as (results' & Hres' & Hpr).
  assert (Hout' : compare_channel_fees P T E amount currency (Some ids')
                  = Ok (assign_ranks (sorted ce_total_cost results'))).
  { unfold compare_channel_fees. rewrite Hres'. reflexivity. }
  exists (assign_ranks (sorted ce_total_cost results')).
  split; [exact Hout'|].
  destruct (compare_channel_fees_sorted_perm _ _ _ _ Hout')
    as (Hsorted' & results'' & Hres'' & Hp').
  simpl in Hres''. rewrite Hres' in Hres''. injection Hres'' as <-.
  assert (Hall : Permutation (map clear_rank out)
                   (map clear_rank
                      (assign_ranks (sorted ce_total_cost results')))).
  { apply Permutation_trans with results; [exact Hp|].
    apply Permutation_trans with results'; [exact Hpr|].
    apply Permutation_sym, Hp'. }
  split; [exact Hall|].
  intros e e' He He'.
  set (out' := assign_ranks (sorted ce_total_cost results')) in *.
  assert (Hle : forall (l l' : list comparison_entry) a a',
             StronglySorted (fun a b => ce_total_cost a <= ce_total_cost b) l ->
             Permutation (map clear_rank l) (map clear_rank l') ->
             nth_error l 0 = Some a -> nth_error l' 0 = Some a' ->
             ce_total_cost a <= ce_total_cost a').
  { intros l l' a a' Hs Hpm Ha Ha'.
    destruct l as [|x l]; [discriminate Ha|]. injection Ha as ->.
    destruct l' as [|x' l']; [discriminate Ha'|]. injection Ha' as ->.
    assert (Hin : In (clear_rank a') (map clear_rank (a :: l))).
    { apply (Permutation_in _ (Permutation_sym Hpm)). left. reflexivity. }
    apply in_map_iff in Hin. destruct Hin as (b & Hb & [<- | Hin]).
    - change (ce_total_cost a') with (ce_total_cost (clear_rank a')).
      rewrite <- Hb. apply Qle_refl.
    - inversion Hs as [|? ? _ Hf]; subst.
      rewrite Forall_forall in Hf. specialize (Hf b Hin).
      change (ce_total_cost a') with (ce_total_cost (clear_rank a')).
      rewrite <- Hb. exact Hf. }
  apply Qle_antisym.
  - exact (Hle out out' e e' Hsorted Hall He He').
  - exact (Hle out' out e' e Hsorted' (Permutation_sym Hall) He' He).
Qed.

End CompareProperties.

Section CompareProperties_examples.
Open Scope Q_scope.

(** For 10000 USD on the sample catalogs the cheapest channel is
    ["bank_transfer"], at 1444.57. *)
Lemma find_cheapest_channel_minimal_witness :
  exists first,
    find_cheapest_channel Sample.PAYMENT_CHANNELS Sample.TIERED_RATES
      Sample.EXCHANGE_RATES 10000 "USD" = Ok (Some first) /\
    ce_channel_id first = "bank_transfer"%string /\
    ce_total_cost first = 144457 # 100 /\
    ce_rank first = Some 1%nat.
Proof.
  assert (H : exists first,
             find_cheapest_channel Sample.PAYMENT_CHANNELS Sample.TIERED_RATES
               Sample.EXCHANGE_RATES 10000 "USD" = Ok (Some first) /\
             ce_channel_id first = "bank_transfer"%string /\
             ce_total_cost first = 144457 # 100)
    by (eexists; split; [vm_compute; reflexivity | split; reflexivity]).
  destruct H as (first & Hfirst & Hid & Hcost).
  exists first. split; [exact Hfirst|]. split; [exact Hid|].
  split; [exact Hcost|].
  apply (find_cheapest_channel_minimal Sample.PAYMENT_CHANNELS
           Sample.TIERED_RATES Sample.EXCHANGE_RATES 10000 "USD" first Hfirst).
Defined.

(** With an empty list of tiers for ["swift"] the comparison for USD
    raises. *)
Lemma compare_channel_fees_raises_iff_witness :
  exists e,
    compare_channel_fees Sample.PAYMENT_CHANNELS [("swift", [])]
      Sample.EXCHANGE_RATES 100 "USD" None = Raise e.
Proof.
  apply (proj2 (compare_channel_fees_raises_iff Sample.PAYMENT_CHANNELS
                  [("swift", [])] Sample.EXCHANGE_RATES 100 "USD" None)).
  exists "swift"%string.
  split; [simpl; auto|]. split; [reflexivity|].
  split; [exact swift_enabled | reflexivity].
Defined.

(** ["alipay"] before ["swift"] or after it: the cheapest entry costs
    1660.98 either way. *)
Lemma compare_channel_fees_order_independent_witness :
  exists out out',
    compare_channel_fees Sample.PAYMENT_CHANNELS Sample.TIERED_RATES
      Sample.EXCHANGE_RATES 10000 "USD" (Some ["alipay"; "swift"]) = Ok out /\
    compare_channel_fees Sample.PAYMENT_CHANNELS Sample.TIERED_RATES
      Sample.EXCHANGE_RATES 10000 "USD" (Some ["swift"; "alipay"]) = Ok out' /\
    Permutation (map clear_rank out) (map clear_rank out').
Proof.
  assert (H : exists out,
             compare_channel_fees Sample.PAYMENT_CHANNELS Sample.TIERED_RATES
               Sample.EXCHANGE_RATES 10000 "USD" (Some ["alipay"; "swift"])
             = Ok out)
    by (eexists; vm_compute; reflexivity).
  destruct H as (out & Hout).
  destruct (compare_channel_fees_order_independent Sample.PAYMENT_CHANNELS
              Sample.TIERED_RATES Sample.EXCHANGE_RATES 10000 "USD"
              ["alipay"; "swift"] ["swift"; "alipay"] out
              (perm_swap "swift"%string "alipay"%string []) Hout)
    as (out' & Hout' & Hp & _).
  exists out, out'. split; [exact Hout|]. split; [exact Hout' | exact Hp].
Defined.

End CompareProperties_examples.

(* ------------------------------------------------------------------------- *)
(** ** The fee query of [main.py] *)
(* ------------------------------------------------------------------------- *)

Section FeeQueryProperties.
Open Scope Q_scope.

Variable P : PyDict.dict channel_config.
Variable T : PyDict.dict (list rate_tier).
Variable E : PyDict.dict Q.
Variable format_value : string -> pyval -> string.

Lemma entry_items_channel_name (e : comparison_entry) :
  PyDict.get (entry_items e) "channel_name" = Some (VStr (ce_channel_name e)).
Proof. reflexivity. Qed.

(** An entry of the comparison has no key ["avg_fee_rate"]. *)
Lemma entry_items_avg_fee_rate (e : comparison_entry) :
  PyDict.get (entry_items e) "avg_fee_rate" = None.
Proof. unfold entry_items. destruct (ce_rank e); reflexivity. Qed.

(** X18: The fee query never shows a recommendation in full: whenever
    [find_cheapest_channel] finds a channel, the query prints the name of
    the channel and then leaves with [KeyError] for ["avg_fee_rate"], a
    key the entries of the comparison do not have.  It carries on only
    for an amount that is not positive and when no channel is found. *)
Theorem fee_query_outcomes (amount : Q) (currency : string) :
  (amount <= 0 ->
   fee_query P T E format_value amount currency
   = (["  错误：交易金额必须大于0"%string], LoopContinues)) /\
  (0 < amount ->
   find_cheapest_channel P T E amount currency = Ok None ->
   fee_query P T E format_value amount currency
   = (["  未找到合适的通道"%string], LoopContinues)) /\
  (0 < amount ->
   forall first,
     find_cheapest_channel P T E amount currency = Ok (Some first) ->
     fee_query P T E format_value amount currency
     = ([String.append (String.append newline "  推荐通道: ")
           (format_value "" (VStr (ce_channel_name first)))],
        Leaves (KeyError "avg_fee_rate"))).
Proof.
  assert (Hpos : 0 < amount -> Qle_bool amount 0 = false).
  { intro H. apply Qlt_bool_iff in H. unfold Qlt_bool in H.
    destruct (Qle_bool amount 0); [discriminate H | reflexivity]. }
  unfold fee_query. split; [|split].
  - intro H. apply Qle_bool_iff in H. rewrite H. reflexivity.
  - intros H Hnone. rewrite (Hpos H), Hnone. reflexivity.
  - intros H first Hfirst. rewrite (Hpos H), Hfirst.
    unfold print_item.
    rewrite entry_items_channel_name, entry_items_avg_fee_rate.
    reflexivity.
Qed.

End FeeQueryProperties.

Section FeeQueryExamples.
Open Scope Q_scope.

(** A query for 10000 USD on the sample catalogs prints the name of
    ["bank_transfer"] and leaves with [KeyError]; a query for AUD finds
    nothing.  Strings are formatted as they are. *)
Lemma fee_query_outcomes_witness :
  fee_query Sample.PAYMENT_CHANNELS Sample.TIERED_RATES
    Sample.EXCHANGE_RATES
    (fun _ v => match v with VStr s => s | _ => ""%string end) 10000 "USD"
  = ([String.append (String.append newline "  推荐通道: ") "银行转账"],
     Leaves (KeyError "avg_fee_rate")) /\
  fee_query Sample.PAYMENT_CHANNELS Sample.TIERED_RATES
    Sample.EXCHANGE_RATES
    (fun _ v => match v with VStr s => s | _ => ""%string end) 500 "AUD"
  = (["  未找到合适的通道"%string], LoopContinues).
Proof.
  assert (H1 : exists first,
             find_cheapest_channel Sample.PAYMENT_CHANNELS Sample.TIERED_RATES
               Sample.EXCHANGE_RATES 10000 "USD" = Ok (Some first) /\
             ce_channel_name first = "银行转账"%string)
    by (eexists; split; [vm_compute; reflexivity | reflexivity]).
  destruct H1 as (first & Hfirst & Hname).
  assert (H2 : find_cheapest_channel Sample.PAYMENT_CHANNELS
                 Sample.TIERED_RATES Sample.EXCHANGE_RATES 500 "AUD" = Ok None)
    by (vm_compute; reflexivity).
  split.
  - rewrite <- Hname.
    apply (proj2 (proj2 (fee_query_outcomes Sample.PAYMENT_CHANNELS
                           Sample.TIERED_RATES Sample.EXCHANGE_RATES
                           (fun _ v => match v with
                                       | VStr s => s
                                       | _ => ""%string
                                       end) 10000 "USD")));
      [lra | exact Hfirst].
  - apply (proj1 (proj2 (fee_query_outcomes Sample.PAYMENT_CHANNELS
                           Sample.TIERED_RATES Sample.EXCHANGE_RATES
                           (fun _ v => match v with
                                       | VStr s => s
                                       | _ => ""%string
                                       end) 500 "AUD")));
      [lra | exact H2].
Defined.

End FeeQueryExamples.

(* ------------------------------------------------------------------------- *)
(** ** Properties of the helpers of [utils.py] *)
(* ------------------------------------------------------------------------- *)

Section UtilsProperties.
Open Scope Q_scope.

(** X19: [clamp] keeps a value inside a well-formed range and leaves a value
    of the range as it is; when the bounds are crossed it returns the
    lower bound, whatever the value. *)
Theorem clamp_range (value min_value max_value : Q) :
  (min_value <= max_value ->
   min_value <= clamp value min_value max_value /\
   clamp value min_value max_value <= max_value /\
   (min_value <= value -> value <= max_value ->
    clamp value min_value max_value == value)) /\
  (max_value < min_value -> clamp value min_value max_value = min_value).
Proof.
  unfold clamp, py_max, py_min.
  destruct (Qlt_bool max_value value) eqn:H1;
    [apply Qlt_bool_iff in H1 | apply Qlt_bool_false_iff in H1].
  - destruct (Qlt_bool min_value max_value) eqn:H2;
      [apply Qlt_bool_iff in H2 | apply Qlt_bool_false_iff in H2];
      split; intros; repeat split; intros; try reflexivity; lra.
  - destruct (Qlt_bool min_value value) eqn:H2;
      [apply Qlt_bool_iff in H2 | apply Qlt_bool_false_iff in H2];
      split; intros; repeat split; intros; try reflexivity; lra.
Qed.

Lemma clamp_range_witness :
  clamp 15 0 10 <= 10 /\ clamp (-5) 0 10 == 0 /\ clamp 5 10 0 = 10.
Proof.
  destruct (clamp_range 15 0 10) as [H1 _].
  destruct (clamp_range (-5) 0 10) as [H2 _].
  destruct (clamp_range 5 10 0) as [_ H3].
  split; [apply H1; lra|]. split; [|apply H3; lra].
  reflexivity.
Defined.








End UtilsProperties.

Section PercentileProperties.
Open Scope Q_scope.

Lemma sorted_length (A : Type) (key : A -> Q) (l : list A) :
  List.length (sorted key l) = List.length l.
Proof. apply Permutation_length, sorted_perm. Qed.

Lemma py_getitem_ok (A : Type) (l : list A) (k : Z) :
  (0 <= k < Z.of_nat (List.length l))%Z ->
  exists a, py_getitem l k = Ok a /\ nth_error l (Z.to_nat k) = Some a.
Proof.
  intro H. unfold py_getitem.
  assert (H1 : (k <? 0)%Z = false) by (apply Z.ltb_ge; lia).
  assert (H2 : (0 <=? k)%Z = true) by (apply Z.leb_le; lia).
  assert (H3 : (k <? Z.of_nat (List.length l))%Z = true)
    by (apply Z.ltb_lt; lia).
  rewrite H1, H2, H3. simpl.
  destruct (nth_error l (Z.to_nat k)) as [a|] eqn:Hn; [eauto|].
  apply nth_error_None in Hn. lia.
Qed.

Lemma py_getitem_raise (A : Type) (l : list A) (k : Z) :
  (Z.of_nat (List.length l) <= k)%Z -> py_getitem l k = Raise IndexError.
Proof.
  intro H. unfold py_getitem.
  assert (H1 : (k <? 0)%Z = false) by (apply Z.ltb_ge; lia).
  assert (H3 : (k <? Z.of_nat (List.length l))%Z = false)
    by (apply Z.ltb_ge; lia).
  rewrite H1, H3, andb_false_r. reflexivity.
Qed.




Lemma py_int_nonneg (x : Q) : 0 <= x -> py_int x = Qfloor x.
Proof.
  intro H. unfold py_int. apply Qle_bool_iff in H. rewrite H. reflexivity.
Qed.




(** X23: Outside that range of percentiles: a list of one value gives that
    value for every percentile, and a list of two or more values raises
    [IndexError] for every percentile above 100. *)
Theorem calculate_percentile_above_100 (values : list Q) (percentile : Q) :
  (forall v, values = [v] -> calculate_percentile values percentile = Ok v) /\
  ((2 <= List.length values)%nat -> 100 < percentile ->
   calculate_percentile values percentile = Raise IndexError).
Proof.
  split.
  - intros v ->. unfold calculate_percentile.
    change (sorted (fun x => x) [v]) with [v].
    change (inject_Z (Z.of_nat (List.length [v]) - 1)) with 0.
    assert (E : 0 * percentile / 100 == 0) by field.
    unfold is_integer, py_int.
    rewrite (Qfloor_comp _ _ E).
    assert (Eb : Qeq_bool (inject_Z (Qfloor 0)) (0 * percentile / 100) = true).
    { apply Qeq_bool_iff. rewrite E. reflexivity. }
    rewrite Eb.
    assert (Ec : Qceiling (0 * percentile / 100) = 0%Z).
    { unfold Qceiling.
      assert (E' : - (0 * percentile / 100) == 0) by (rewrite E; reflexivity).
      rewrite (Qfloor_comp _ _ E'). reflexivity. }
    rewrite Ec. destruct (Qle_bool 0 (0 * percentile / 100)); reflexivity.
  - intros Hlen Hp.
    destruct values as [|v0 vs]; [simpl in Hlen; lia|].
    unfold calculate_percentile.
    set (sv := sorted (fun x => x) (v0 :: vs)).
    assert (Hsv : List.length sv = List.length (v0 :: vs))
      by apply sorted_length.
    set (m := (Z.of_nat (List.length sv) - 1)%Z).
    assert (Hm : (1 <= m)%Z) by (unfold m; lia).
    assert (HM : 1 <= inject_Z m)
      by (change 1 with (inject_Z 1); rewrite <- Zle_Qle; exact Hm).
    assert (Hidx : inject_Z m < inject_Z m * percentile / 100).
    { assert (E : inject_Z m * percentile / 100
                  == inject_Z m + inject_Z m * (percentile - 100) * (1 # 100))
        by field.
      rewrite E.
      assert (0 < inject_Z m * (percentile - 100))
        by (apply Qmult_lt_0_compat; lra).
      lra. }
    set (index := inject_Z m * percentile / 100) in *.
    assert (Hi0 : 0 <= index) by lra.
    rewrite (py_int_nonneg index Hi0).
    assert (Hk : (m <= Qfloor index)%Z).
    { rewrite <- (Qfloor_Z m). apply Qfloor_resp_le. lra. }
    destruct (is_integer index) eqn:Hint.
    + apply py_getitem_raise.
      unfold is_integer in Hint. apply Qeq_bool_iff in Hint.
      assert (Hlt : (m < Qfloor index)%Z) by (rewrite Zlt_Qlt; lra).
      unfold m in Hlt. lia.
    + destruct (Z.eq_dec (Qfloor index) m) as [Heq|Hneq].
      * destruct (py_getitem_ok Q sv (Qfloor index)) as (lo & Hlo & _);
          [unfold m in Heq; lia|].
        rewrite Hlo.
        rewrite (py_getitem_raise Q sv (Qfloor index + 1)); [reflexivity|].
        unfold m in Heq. lia.
      * rewrite py_getitem_raise; [reflexivity|]. unfold m in Hk, Hneq. lia.
Qed.

Lemma calculate_percentile_above_100_witness :
  calculate_percentile [7] 250 = Ok 7 /\
  calculate_percentile [1; 2; 3] 101 = Raise IndexError.
Proof.
  destruct (calculate_percentile_above_100 [7] 250) as [H1 _].
  destruct (calculate_percentile_above_100 [1; 2; 3] 101) as [_ H2].
  split; [apply H1; reflexivity|].
  apply H2; [simpl; lia | lra].
Defined.

End PercentileProperties.

(* ------------------------------------------------------------------------- *)
(** ** Properties of the channel classes of [models.py] *)
(* ------------------------------------------------------------------------- *)

Section ModelsProperties.
Open Scope Q_scope.

Lemma PaymentChannel_fee_le_max (ch : payment_channel) (amount : Q) :
  0 < pc_max_fee ch -> PaymentChannel_calculate_fee ch amount <= pc_max_fee ch.
Proof.
  intro Hmax. unfold PaymentChannel_calculate_fee. cbv zeta.
  apply Qlt_bool_iff in Hmax. rewrite Hmax. simpl.
  destruct (Qlt_bool (pc_max_fee ch) _) eqn:H;
    [apply Qle_refl | apply Qlt_bool_false_iff in H; exact H].
Qed.

Lemma PaymentChannel_fee_ge_min (ch : payment_channel) (amount : Q) :
  0 < pc_min_fee ch ->
  pc_max_fee ch <= 0 \/ pc_min_fee ch <= pc_max_fee ch ->
  pc_min_fee ch <= PaymentChannel_calculate_fee ch amount.
Proof.
  intros Hmin Hmax. unfold PaymentChannel_calculate_fee. cbv zeta.
  pose proof Hmin as Hb. apply Qlt_bool_iff in Hb. rewrite Hb. simpl.
  destruct (Qlt_bool (amount * pc_base_rate ch + pc_fixed_fee ch)
              (pc_min_fee ch)) eqn:H1;
    [apply Qlt_bool_iff in H1 | apply Qlt_bool_false_iff in H1];
    destruct (Qlt_bool 0 (pc_max_fee ch)) eqn:H2;
    try (apply Qlt_bool_iff in H2); try (apply Qlt_bool_false_iff in H2);
    simpl;
    try (destruct (Qlt_bool (pc_max_fee ch) _) eqn:H3;
         [apply Qlt_bool_iff in H3 | apply Qlt_bool_false_iff in H3]);
    lra.
Qed.

(** X24: A channel object of any class but the wallet never charges more than
    its positive maximum fee, whatever its minimum fee is. *)
Theorem channel_fee_at_most_max (ch : payment_channel) (amount : Q) :
  0 < pc_max_fee ch ->
  (forall i c, pc_class ch <> ClassWalletChannel i c) ->
  calculate_fee ch amount <= pc_max_fee ch.
Proof.
  intros Hmax Hclass.
  pose proof (PaymentChannel_fee_le_max ch amount Hmax) as Hbase.
  unfold calculate_fee.
  destruct (pc_class ch) as [|pd sc|i c|ct] eqn:Hc; try exact Hbase.
  - unfold BankChannel_calculate_fee. cbv zeta.
    destruct (Qlt_bool 50000 amount); [|exact Hbase].
    destruct (Qlt_le_dec (PaymentChannel_calculate_fee ch amount) 0); lra.
  - exfalso. exact (Hclass i c eq_refl).
Qed.

(** A base channel with minimum 50 and maximum 20 charges 20 for an
    amount of 100, where [calculate_channel_fee] charges 50. *)
Lemma channel_fee_at_most_max_witness :
  calculate_fee (PaymentChannel_init "inverted" "inverted" (1 # 100) 0 50 20)
    100 <= 20.
Proof.
  apply (channel_fee_at_most_max
           (PaymentChannel_init "inverted" "inverted" (1 # 100) 0 50 20) 100).
  - simpl. lra.
  - intros i c H. discriminate H.
Defined.

(** X25: The channel object and [calculate_channel_fee] at the base rate charge
    the same, up to the rounding to cents, whenever the clamps of the
    catalog entry do not cross. *)
Theorem channel_object_agrees_with_calculator
  (P : PyDict.dict channel_config) (T : PyDict.dict (list rate_tier))
  (amount : Q) (channel_id : string) (c : channel_config) (r : fee_ok) :
  PyDict.get P channel_id = Some c ->
  get_default (cfg_max_fee c) 0 <= 0 \/
  get_default (cfg_min_fee c) 0 <= 0 \/
  get_default (cfg_min_fee c) 0 <= get_default (cfg_max_fee c) 0 ->
  calculate_channel_fee P T amount channel_id false = Ok (FeeOk r) ->
  fee_final_fee r
  = py_round
      (PaymentChannel_calculate_fee
         (PaymentChannel_init channel_id (cfg_name c) (cfg_base_rate c)
            (get_default (cfg_fixed_fee c) 0)
            (get_default (cfg_min_fee c) 0)
            (get_default (cfg_max_fee c) 0))
         amount) 2.
Proof.
  intros Hget Hclamp Hfee.
  destruct (calculate_channel_fee_ok_fields P T _ _ _ _ Hfee)
    as (c' & rate0 & Hget' & _ & Hrate & _ & _ & _ & _ & _ & Hrest).
  rewrite Hget in Hget'. injection Hget' as <-.
  simpl in Hrate. injection Hrate as <-.
  cbv zeta in Hrest.
  unfold PaymentChannel_calculate_fee, PaymentChannel_init. simpl.
  set (calc := amount * cfg_base_rate c + get_default (cfg_fixed_fee c) 0) in *.
  set (mn := get_default (cfg_min_fee c) 0) in *.
  set (mx := get_default (cfg_max_fee c) 0) in *.
  destruct Hrest as
    (_ & [(Ha & Hb & -> & _) | [(Hn & Ha & Hb & -> & _)
                               | (Hn & Hm & -> & _)]]).
  - apply Qlt_bool_iff in Ha, Hb. rewrite Ha, Hb. simpl.
    destruct (Qlt_bool 0 mx) eqn:H1; simpl; [|reflexivity].
    destruct (Qlt_bool mx mn) eqn:H2; [|reflexivity].
    apply Qlt_bool_iff in H1, H2, Ha. exfalso. lra.
  - assert (Hmin : Qlt_bool 0 mn && Qlt_bool calc mn = false).
    { destruct (Qlt_bool 0 mn) eqn:H1; [|reflexivity].
      destruct (Qlt_bool calc mn) eqn:H2; [|reflexivity].
      apply Qlt_bool_iff in H1, H2. exfalso. apply Hn. split; assumption. }
    rewrite Hmin. apply Qlt_bool_iff in Ha, Hb. rewrite Ha, Hb. reflexivity.
  - assert (Hmin : Qlt_bool 0 mn && Qlt_bool calc mn = false).
    { destruct (Qlt_bool 0 mn) eqn:H1; [|reflexivity].
      destruct (Qlt_bool calc mn) eqn:H2; [|reflexivity].
      apply Qlt_bool_iff in H1, H2. exfalso. apply Hn. split; assumption. }
    assert (Hmax : Qlt_bool 0 mx && Qlt_bool mx calc = false).
    { destruct (Qlt_bool 0 mx) eqn:H1; [|reflexivity].
      destruct (Qlt_bool mx calc) eqn:H2; [|reflexivity].
      apply Qlt_bool_iff in H1, H2. exfalso. apply Hm. split; assumption. }
    rewrite Hmin, Hmax. reflexivity.
Qed.

(** ["swift"] at the base rate: 180 for 10000 from both. *)
Lemma channel_object_agrees_with_calculator_witness :
  exists r,
    calculate_channel_fee Sample.PAYMENT_CHANNELS Sample.TIERED_RATES
      10000 "swift" false = Ok (FeeOk r) /\
    fee_final_fee r = 180 /\
    fee_final_fee r
    = py_round
        (PaymentChannel_calculate_fee
           (PaymentChannel_init "swift" "SWIFT国际汇款" (15 # 1000) 30 80 800)
           10000) 2.
Proof.
  eexists. split; [vm_compute; reflexivity|]. split; [reflexivity|].
  apply (channel_object_agrees_with_calculator Sample.PAYMENT_CHANNELS
           Sample.TIERED_RATES 10000 "swift" _ _ eq_refl).
  - right. right. simpl. lra.
  - vm_compute. reflexivity.
Defined.

(** X26: A bank channel takes a tenth off above 50000 after the clamps: with a
    positive minimum fee and a maximum that does not cross it, the fee is
    at least nine tenths of the minimum, and at least the minimum up to
    50000. *)
Theorem bank_fee_floor
  (ch : payment_channel) (amount : Q) (processing_days : Z)
  (swift_code : option string) :
  pc_class ch = ClassBankChannel processing_days swift_code ->
  0 < pc_min_fee ch ->
  pc_max_fee ch <= 0 \/ pc_min_fee ch <= pc_max_fee ch ->
  (9 # 10) * pc_min_fee ch <= calculate_fee ch amount /\
  (amount <= 50000 -> pc_min_fee ch <= calculate_fee ch amount).
Proof.
  intros Hc Hmin Hmax.
  pose proof (PaymentChannel_fee_ge_min ch amount Hmin Hmax) as Hbase.
  unfold calculate_fee. rewrite Hc.
  unfold BankChannel_calculate_fee. cbv zeta.
  destruct (Qlt_bool 50000 amount) eqn:H;
    [apply Qlt_bool_iff in H | apply Qlt_bool_false_iff in H];
    split; intros; lra.
Qed.

(** A bank channel with rate 0.001 and minimum 80 charges 72 for 60000. *)
Lemma bank_fee_floor_witness :
  calculate_fee (BankChannel_init "b" "bank" (1 # 1000) 0 80 800 3 None) 60000
  == 72 /\
  (9 # 10) * 80
  <= calculate_fee (BankChannel_init "b" "bank" (1 # 1000) 0 80 800 3 None)
       60000.
Proof.
  split; [reflexivity|].
  apply (bank_fee_floor (BankChannel_init "b" "bank" (1 # 1000) 0 80 800 3 None)
           60000 3 None eq_refl).
  - simpl. lra.
  - right. simpl. lra.
Defined.

(** X27: The factory keeps the clamps of a catalog entry only for the types
    ["bank"] and ["card"]: for any other type, and for an entry without a
    type, the channel it creates has no minimum and no maximum and charges
    [amount * base_rate + fixed_fee]; unless the type is ["wallet"] that
    channel supports no currency. *)
Theorem factory_drops_clamps
  (channel_id : string) (config : factory_config) (amount : Q) :
  get_default (fc_type config) "base"%string <> "bank"%string ->
  get_default (fc_type config) "base"%string <> "card"%string ->
  calculate_fee (create_channel_from_config channel_id config) amount
  = amount * cfg_base_rate (fc_config config)
    + get_default (cfg_fixed_fee (fc_config config)) 0 /\
  pc_min_fee (create_channel_from_config channel_id config) = 0 /\
  pc_max_fee (create_channel_from_config channel_id config) = 0 /\
  (get_default (fc_type config) "base"%string <> "wallet"%string ->
   forall currency,
     is_currency_supported (create_channel_from_config channel_id config)
       currency = false).
Proof.
  intros Hbank Hcard. unfold create_channel_from_config. cbv zeta.
  apply String.eqb_neq in Hbank. apply String.eqb_neq in Hcard.
  rewrite Hbank, Hcard.
  destruct (String.eqb (get_default (fc_type config) "base") "wallet") eqn:Hw.
  - repeat split; try reflexivity.
    intro H. apply String.eqb_eq in Hw. contradiction.
  - repeat split; reflexivity.
Qed.

(** An entry without a type, with minimum 80: the channel created charges
    1.5 for an amount of 100. *)
Lemma factory_drops_clamps_witness :
  calculate_fee
    (create_channel_from_config "swift"
       {| fc_config :=
            {| cfg_name := "SWIFT";
               cfg_base_rate := 15 # 1000;
               cfg_fixed_fee := None;
               cfg_min_fee := Some 80;
               cfg_max_fee := Some 800;
               cfg_is_active := None;
               cfg_supported_currencies := Some ["USD"%string] |};
          fc_type := None;
          fc_processing_days := None |})
    100 == 15 # 10.
Proof.
  match goal with
  | |- calculate_fee (create_channel_from_config _ ?cfg) _ == _ =>
      destruct (factory_drops_clamps "swift" cfg 100) as [H _];
        [simpl; discriminate | simpl; discriminate |]
  end.
  rewrite H. reflexivity.
Defined.

End ModelsProperties.
